(** * Physics API: the PhysicsEngine of server.js, embedded and verified

    The engine ([calculateTrajectory], [calculateImpact],
    [calculateCollision], [calculateForces], and the [MATERIALS] catalog
    they look up) computes with JavaScript numbers.  They are modelled here
    in exact arithmetic: a number is a real, or [NaN], which is what
    arithmetic makes of [undefined].  The rounding of IEEE doubles and
    overflow are idealised away, so [Infinity] does not arise; the roundings
    the source asks for ([toFixed]) are kept.  A division whose divisor is
    zero is an outcome of its own, [DivisionByZero], so that its absence can
    be stated.  The [while] loop of the integrator runs on fuel, and running
    out of it is the outcome [OutOfFuel]; the properties show that fuel for
    30,001 turns is always enough. *)

From Stdlib Require Import Reals Lra Lia ZArith String List Psatz.
Import ListNotations.

Open Scope R_scope.

(** ** Outcomes *)

Inductive result (A : Type) : Type :=
| Ok (a : A)
| DivisionByZero
| OutOfFuel.

Arguments Ok {A} a.
Arguments DivisionByZero {A}.
Arguments OutOfFuel {A}.

Definition bind {A B : Type} (c : result A) (k : A -> result B) : result B :=
  match c with
  | Ok a => k a
  | DivisionByZero => DivisionByZero
  | OutOfFuel => OutOfFuel
  end.

Notation "x <- c ;; k" := (bind c (fun x => k))
  (at level 61, c at next level, right associativity).

(** ** Numbers *)

Inductive num : Type :=
| Fin (r : R)
| NaN.

Declare Scope js_scope.
Delimit Scope js_scope with js.
Bind Scope js_scope with num.

Definition lift1 (f : R -> R) (a : num) : num :=
  match a with
  | Fin x => Fin (f x)
  | NaN => NaN
  end.

Definition lift2 (f : R -> R -> R) (a b : num) : num :=
  match a, b with
  | Fin x, Fin y => Fin (f x y)
  | _, _ => NaN
  end.

Definition nadd : num -> num -> num := lift2 Rplus.
Definition nsub : num -> num -> num := lift2 Rminus.
Definition nmul : num -> num -> num := lift2 Rmult.
Definition nneg : num -> num := lift1 Ropp.

(** [a / b]: the one operation that can fail. *)
Definition ndiv (a b : num) : result num :=
  match b with
  | Fin y => if Req_dec_T y 0 then DivisionByZero else Ok (lift1 (fun x => x / y) a)
  | NaN => Ok NaN
  end.

(** [a ** 2] and [a ** 3]. *)
Definition nsq (a : num) : num := lift1 (fun x => x ^ 2) a.
Definition ncube (a : num) : num := lift1 (fun x => x ^ 3) a.

(** [a > b] and [a >= b]: false as soon as one side is [NaN]. *)
Definition ngtb (a b : num) : bool :=
  match a, b with
  | Fin x, Fin y => if Rlt_dec y x then true else false
  | _, _ => false
  end.

Definition ngeb (a b : num) : bool :=
  match a, b with
  | Fin x, Fin y => if Rle_dec y x then true else false
  | _, _ => false
  end.

(** [a || 0] on a number: [0] and [NaN] are falsy. *)
Definition or_zero (a : num) : num :=
  match a with
  | Fin x => Fin x
  | NaN => Fin 0
  end.

Notation "a + b" := (nadd a b) : js_scope.
Notation "a - b" := (nsub a b) : js_scope.
Notation "a * b" := (nmul a b) : js_scope.
Notation "- a" := (nneg a) : js_scope.
Notation "a / b" := (ndiv a b) : js_scope.
Notation "a >? b" := (ngtb a b) (at level 70, no associativity) : js_scope.
Notation "a >=? b" := (ngeb a b) (at level 70, no associativity) : js_scope.

Coercion Fin : R >-> num.

(** The [Math] object. *)
Definition Math_PI : num := Fin PI.
Definition Math_cos : num -> num := lift1 cos.
Definition Math_sin : num -> num := lift1 sin.
Definition Math_abs : num -> num := lift1 Rabs.

Definition Math_sqrt (a : num) : num :=
  match a with
  | Fin x => if Rle_dec 0 x then Fin (sqrt x) else NaN
  | NaN => NaN
  end.

Definition atan2 (y x : R) : R :=
  if Rlt_dec 0 x then atan (y / x)
  else if Rlt_dec x 0 then
         (if Rle_dec 0 y then atan (y / x) + PI else atan (y / x) - PI)
  else if Rlt_dec 0 y then PI / 2
  else if Rlt_dec y 0 then - (PI / 2)
  else 0.

Definition Math_atan2 : num -> num -> num := lift2 atan2.

(** [parseFloat(a.toFixed(d))]: the magnitude is rounded to the nearest
    multiple of [10^-d], a tie going up, and the sign put back; from [1e21]
    on [toFixed] prints the number as it is. *)
Definition toFixed (d : nat) (x : R) : R :=
  if Rle_dec (10 ^ 21) (Rabs x) then x
  else
    let n := Zfloor (Rabs x * 10 ^ d + / 2) in
    if Rlt_dec x 0 then - (IZR n / 10 ^ d) else IZR n / 10 ^ d.

Definition parseFloat_toFixed (d : nat) : num -> num := lift1 (toFixed d).

(** ** The material catalog *)

Module Material.
Record t : Type := mk
  { mass : R; radius : R; dragCoeff : R; bounciness : R }.
End Material.

Definition MATERIALS_custom : Material.t := Material.mk 1 0.05 0.47 0.6.

Definition MATERIALS : list (string * Material.t) :=
  [ ("basketball"%string, Material.mk 0.624 0.1194 0.47 0.85);
    ("soccer"%string, Material.mk 0.43 0.11 0.25 0.75);
    ("tennis"%string, Material.mk 0.057 0.0335 0.51 0.73);
    ("baseball"%string, Material.mk 0.145 0.037 0.3 0.55);
    ("golf"%string, Material.mk 0.046 0.021 0.24 0.78);
    ("bowling"%string, Material.mk 7.26 0.108 0.15 0.15);
    ("rock"%string, Material.mk 0.5 0.05 0.47 0.2);
    ("paper_airplane"%string, Material.mk 0.003 0.1 0.02 0.1);
    ("custom"%string, MATERIALS_custom) ].

(** [MATERIALS] is an object literal: besides its own properties it answers
    to the names it inherits from [Object.prototype]. *)
Definition Object_prototype : list string :=
  [ "constructor"; "__defineGetter__"; "__defineSetter__"; "hasOwnProperty";
    "__lookupGetter__"; "__lookupSetter__"; "isPrototypeOf";
    "propertyIsEnumerable"; "toString"; "valueOf"; "__proto__";
    "toLocaleString" ]%string.

Inductive jsobject : Type :=
| MaterialObj (m : Material.t)
| Inherited (name : string).

Fixpoint own_property {A : Type} (key : string) (o : list (string * A)) : option A :=
  match o with
  | [] => None
  | (k, v) :: o' => if String.eqb key k then Some v else own_property key o'
  end.

(** [MATERIALS[key]]; [None] is [undefined]. *)
Definition MATERIALS_get (key : string) : option jsobject :=
  match own_property key MATERIALS with
  | Some m => Some (MaterialObj m)
  | None =>
      if existsb (String.eqb key) Object_prototype then Some (Inherited key)
      else None
  end.

(** [MATERIALS[material] || MATERIALS.custom]: every object is truthy, only
    [undefined] falls through. *)
Definition lookupMaterial (material : string) : jsobject :=
  match MATERIALS_get material with
  | Some o => o
  | None => MaterialObj MATERIALS_custom
  end.

(** Reading a property of the looked-up object for arithmetic: a member
    inherited from [Object.prototype] has none of the four, and [undefined]
    becomes [NaN]. *)
Definition prop (f : Material.t -> R) (obj : jsobject) : num :=
  match obj with
  | MaterialObj m => Fin (f m)
  | Inherited _ => NaN
  end.

(** ** PHYSICS_CONSTANTS *)

Definition GRAVITY : R := 9.81.
Definition AIR_DENSITY : R := 1.225.

(** A destructuring default: it applies to an absent property. *)
Definition default {A : Type} (d : A) (o : option A) : A :=
  match o with
  | Some v => v
  | None => d
  end.

Module Vector.
Record t : Type := mk { x : num; y : num }.
End Vector.

(** ** calculateTrajectory *)

Module TrajectoryParams.
Record t : Type := mk
  { initialHeight : option R;
    initialVelocity : option R;
    launchAngle : option R;
    material : option string;
    windSpeed : option R;
    windDirection : option R;
    airDensity : option R;
    gravity : option R }.
End TrajectoryParams.

Module Sample.
Record t : Type := mk
  { time : num; x : num; y : num; vx : num; vy : num; speed : num }.
End Sample.

(** The variables the loop updates; [t_] is the clock [t]. *)
Module State.
Record t : Type := mk { x : num; y : num; vx : num; vy : num; t_ : num }.
End State.

Definition dt : R := 0.01.

Section Integrator.
Variable obj : jsobject.
Variables airDensity gravity windX windY : num.

Local Open Scope js_scope.

(** The drag component along one axis,
    [vRel > 0 ? -dragMagnitude * (vRelAxis / vRel) / obj.mass : 0]. *)
Definition drag (dragMagnitude vRel vRelAxis : num) : result num :=
  if vRel >? 0 then
    q <- vRelAxis / vRel ;;
    (- dragMagnitude * q) / prop Material.mass obj
  else Ok (Fin 0).

(** One turn of the loop body: the updated variables and the sample
    pushed. *)
Definition step (s : State.t) : result (State.t * Sample.t) :=
  let vRelX := State.vx s - windX in
  let vRelY := State.vy s - windY in
  let vRel := Math_sqrt (vRelX * vRelX + vRelY * vRelY) in
  let crossSectionalArea :=
    Math_PI * prop Material.radius obj * prop Material.radius obj in
  let dragMagnitude :=
    Fin 0.5 * prop Material.dragCoeff obj * airDensity * crossSectionalArea
    * vRel * vRel in
  dragX <- drag dragMagnitude vRel vRelX ;;
  dragY <- drag dragMagnitude vRel vRelY ;;
  let vx := State.vx s + dragX * dt in
  let vy := State.vy s + (- gravity + dragY) * dt in
  let x := State.x s + vx * dt in
  let y := State.y s + vy * dt in
  let sample :=
    Sample.mk (parseFloat_toFixed 3 (State.t_ s))
              (parseFloat_toFixed 3 x)
              (parseFloat_toFixed 3 y)
              (parseFloat_toFixed 3 vx)
              (parseFloat_toFixed 3 vy)
              (parseFloat_toFixed 3 (Math_sqrt (vx * vx + vy * vy))) in
  Ok (State.mk x y vx vy (State.t_ s + dt), sample).

(** [while (y >= 0) { ...; t += dt; if (t > 300) break; }] *)
Fixpoint while_loop (fuel : nat) (s : State.t) (trajectory : list Sample.t)
  : result (list Sample.t) :=
  if State.y s >=? 0 then
    match fuel with
    | O => OutOfFuel
    | S fuel' =>
        r <- step s ;;
        let trajectory' := (trajectory ++ [snd r])%list in
        if State.t_ (fst r) >? 300 then Ok trajectory'
        else while_loop fuel' (fst r) trajectory'
    end
  else Ok trajectory.
End Integrator.

(** What the function has computed when it reaches the loop. *)
Module Setup.
Record t : Type := mk
  { obj : jsobject;
    airDensity : num;
    gravity : num;
    windX : num;
    windY : num;
    start : State.t }.
End Setup.

Definition setup (params : TrajectoryParams.t) : result Setup.t :=
  let initialHeight := default 0 (TrajectoryParams.initialHeight params) in
  let initialVelocity := default 10 (TrajectoryParams.initialVelocity params) in
  let launchAngle := default 45 (TrajectoryParams.launchAngle params) in
  let material := default "basketball"%string (TrajectoryParams.material params) in
  let windSpeed := default 0 (TrajectoryParams.windSpeed params) in
  let windDirection := default 0 (TrajectoryParams.windDirection params) in
  let airDensity := default AIR_DENSITY (TrajectoryParams.airDensity params) in
  let gravity := default GRAVITY (TrajectoryParams.gravity params) in
  let obj := lookupMaterial material in
  (angleRad <- (Fin launchAngle * Math_PI) / Fin 180 ;;
   windDirRad <- (Fin windDirection * Math_PI) / Fin 180 ;;
   let vx := Fin initialVelocity * Math_cos angleRad in
   let vy := Fin initialVelocity * Math_sin angleRad in
   let x := Fin 0 in
   let y := Fin initialHeight in
   let t := Fin 0 in
   let windX := Fin windSpeed * Math_cos windDirRad in
   let windY := Fin windSpeed * Math_sin windDirRad in
   Ok (Setup.mk obj airDensity gravity windX windY (State.mk x y vx vy t)))%js.

Definition calculateTrajectory (fuel : nat) (params : TrajectoryParams.t)
  : result (list Sample.t) :=
  e <- setup params ;;
  while_loop (Setup.obj e) (Setup.airDensity e) (Setup.gravity e)
             (Setup.windX e) (Setup.windY e) fuel (Setup.start e) [].


(** [range = finalPoint.x], as the trajectory route reads it. *)
Definition finalPoint (trajectory : list Sample.t) : option Sample.t :=
  last (map Some trajectory) None.

Definition range (trajectory : list Sample.t) : option num :=
  option_map Sample.x (finalPoint trajectory).

(** ** calculateImpact *)

Module Velocity.
Record t : Type := mk { vx : num; vy : num }.
End Velocity.

Module ImpactResult.
Record t : Type := mk
  { impactSpeed : num;
    kineticEnergy : num;
    impactForce : num;
    impactAngle : num;
    estimatedContactTime : num }.
End ImpactResult.

Definition surfaceFactors : list (string * R) :=
  [ ("concrete", 1.0); ("grass", 0.7); ("sand", 0.5); ("water", 0.3);
    ("wood", 0.8); ("metal", 1.2) ]%string.

(** [surfaceFactors[impactSurface] || 1.0]; an inherited member is truthy and
    multiplies to [NaN]. *)
Definition surfaceFactor (impactSurface : string) : num :=
  match own_property impactSurface surfaceFactors with
  | Some f => if Req_dec_T f 0 then Fin 1.0 else Fin f
  | None =>
      if existsb (String.eqb impactSurface) Object_prototype then NaN
      else Fin 1.0
  end.

(** [obj.bounciness * 0.01], the divisor of the impact force. *)
Definition contactTime (obj : jsobject) : num :=
  (prop Material.bounciness obj * Fin 0.01)%js.

Definition calculateImpact (finalVelocity : Velocity.t)
  (material impactSurface : option string) : result ImpactResult.t :=
  let material := default "basketball"%string material in
  let impactSurface := default "concrete"%string impactSurface in
  let obj := lookupMaterial material in
  (let speed :=
     Math_sqrt (Velocity.vx finalVelocity * Velocity.vx finalVelocity
                + Velocity.vy finalVelocity * Velocity.vy finalVelocity) in
   let kineticEnergy := Fin 0.5 * prop Material.mass obj * speed * speed in
   impactForce <- (prop Material.mass obj * speed) / contactTime obj ;;
   let adjustedForce := impactForce * surfaceFactor impactSurface in
   angle <- (Math_atan2 (Math_abs (Velocity.vy finalVelocity))
                        (Math_abs (Velocity.vx finalVelocity)) * Fin 180) / Math_PI ;;
   Ok (ImpactResult.mk
         (parseFloat_toFixed 3 speed)
         (parseFloat_toFixed 3 kineticEnergy)
         (parseFloat_toFixed 3 adjustedForce)
         (parseFloat_toFixed 2 angle)
         (parseFloat_toFixed 2 (contactTime obj * Fin 1000))))%js.

(** ** calculateCollision *)

Module CollisionObject.
Record t : Type := mk
  { mass1 : option R;
    velocity1 : option Vector.t;
    mass2 : option R;
    velocity2 : option Vector.t;
    restitution : option R }.

Definition empty : t := mk None None None None None.
End CollisionObject.

(** One property of [{ ...obj1, ...obj2 }]: the later spread overwrites. *)
Definition spread_property {A : Type} (p1 p2 : option A) : option A :=
  match p2 with
  | Some v => Some v
  | None => p1
  end.

Definition spread (obj1 obj2 : CollisionObject.t) : CollisionObject.t :=
  CollisionObject.mk
    (spread_property (CollisionObject.mass1 obj1) (CollisionObject.mass1 obj2))
    (spread_property (CollisionObject.velocity1 obj1) (CollisionObject.velocity1 obj2))
    (spread_property (CollisionObject.mass2 obj1) (CollisionObject.mass2 obj2))
    (spread_property (CollisionObject.velocity2 obj1) (CollisionObject.velocity2 obj2))
    (spread_property (CollisionObject.restitution obj1) (CollisionObject.restitution obj2)).

Module CollisionResult.
Record t : Type := mk
  { object1FinalVelocity : Vector.t;
    object2FinalVelocity : Vector.t;
    energyLoss : num;
    impactForce : num }.
End CollisionResult.

Section Collision.
Variables mass1 mass2 restitution : num.
Variables velocity1 velocity2 : Vector.t.

Local Open Scope js_scope.

Definition totalMass : num := mass1 + mass2.

Definition relativeVelocity : Vector.t :=
  Vector.mk (Vector.x velocity1 - Vector.x velocity2)
            (Vector.y velocity1 - Vector.y velocity2).

(** [v1Final] and [v2Final], not yet rounded. *)
Definition v1Final : result Vector.t :=
  kx <- (Fin 2 * mass2) / totalMass ;;
  ky <- (Fin 2 * mass2) / totalMass ;;
  Ok (Vector.mk
        (Vector.x velocity1 - kx * Vector.x relativeVelocity * restitution)
        (Vector.y velocity1 - ky * Vector.y relativeVelocity * restitution)).

Definition v2Final : result Vector.t :=
  kx <- (Fin 2 * mass1) / totalMass ;;
  ky <- (Fin 2 * mass1) / totalMass ;;
  Ok (Vector.mk
        (Vector.x velocity2 + kx * Vector.x relativeVelocity * restitution)
        (Vector.y velocity2 + ky * Vector.y relativeVelocity * restitution)).

Definition kineticEnergy (v1 v2 : Vector.t) : num :=
  Fin 0.5 * mass1 * (nsq (Vector.x v1) + nsq (Vector.y v1))
  + Fin 0.5 * mass2 * (nsq (Vector.x v2) + nsq (Vector.y v2)).

Definition collide : result CollisionResult.t :=
  v1 <- v1Final ;;
  v2 <- v2Final ;;
  let initialKE := kineticEnergy velocity1 velocity2 in
  let finalKE := kineticEnergy v1 v2 in
  force <- (mass1 * Math_sqrt (nsq (Vector.x relativeVelocity)
                               + nsq (Vector.y relativeVelocity))) / Fin 0.01 ;;
  Ok (CollisionResult.mk
        (Vector.mk (parseFloat_toFixed 3 (Vector.x v1))
                   (parseFloat_toFixed 3 (Vector.y v1)))
        (Vector.mk (parseFloat_toFixed 3 (Vector.x v2))
                   (parseFloat_toFixed 3 (Vector.y v2)))
        (parseFloat_toFixed 3 (initialKE - finalKE))
        (parseFloat_toFixed 3 force)).
End Collision.

Definition calculateCollision (obj1 obj2 : CollisionObject.t)
  : result CollisionResult.t :=
  let merged := spread obj1 obj2 in
  let mass1 := default 1 (CollisionObject.mass1 merged) in
  let velocity1 := default (Vector.mk 10 0) (CollisionObject.velocity1 merged) in
  let mass2 := default 1 (CollisionObject.mass2 merged) in
  let velocity2 := default (Vector.mk (-5) 0) (CollisionObject.velocity2 merged) in
  let restitution := default 0.8 (CollisionObject.restitution merged) in
  collide mass1 mass2 restitution velocity1 velocity2.

(** ** calculateForces *)

Module ForceParams.
Record t : Type := mk
  { mass : option R;
    velocity : option Vector.t;
    height : option R;
    material : option string;
    includeAirResistance : option bool }.
End ForceParams.

Module Force.
Record t : Type := mk
  { magnitude : num;
    direction : option string;
    vector : Vector.t }.
End Force.

Module Forces.
Record t : Type := mk
  { gravity : Force.t;
    airResistance : option Force.t;
    buoyancy : Force.t;
    net : Force.t }.
End Forces.

(** One component of the drag vector, [speed > 0 ? parseFloat(...) : 0]. *)
Definition airResistanceComponent (dragMagnitude speed velocityAxis : num)
  : result num :=
  (if speed >? 0 then
     q <- (- dragMagnitude * velocityAxis) / speed ;;
     Ok (parseFloat_toFixed 3 q)
   else Ok (Fin 0))%js.

(** [forces.airResistance?.vector.x || 0] and its [y] twin. *)
Definition optionalComponent (f : Vector.t -> num) (airResistance : option Force.t)
  : num :=
  match airResistance with
  | Some force => or_zero (f (Force.vector force))
  | None => Fin 0
  end.

Definition calculateForces (params : ForceParams.t) : result Forces.t :=
  let mass := default 1 (ForceParams.mass params) in
  let velocity := default (Vector.mk 0 0) (ForceParams.velocity params) in
  let height := default 0 (ForceParams.height params) in
  let material := default "basketball"%string (ForceParams.material params) in
  let includeAirResistance := default true (ForceParams.includeAirResistance params) in
  let obj := lookupMaterial material in
  (let gravity :=
     Force.mk (prop Material.mass obj * Fin GRAVITY) (Some "downward"%string)
              (Vector.mk 0 (- prop Material.mass obj * Fin GRAVITY)) in
   airResistance <-
     (if includeAirResistance then
        let speed := Math_sqrt (nsq (Vector.x velocity) + nsq (Vector.y velocity)) in
        let crossSectionalArea := Math_PI * prop Material.radius obj * prop Material.radius obj in
        let dragMagnitude :=
          Fin 0.5 * prop Material.dragCoeff obj * Fin AIR_DENSITY * crossSectionalArea
          * speed * speed in
        ax <- airResistanceComponent dragMagnitude speed (Vector.x velocity) ;;
        ay <- airResistanceComponent dragMagnitude speed (Vector.y velocity) ;;
        Ok (Some (Force.mk (parseFloat_toFixed 3 dragMagnitude)
                           (Some "opposite to velocity"%string)
                           (Vector.mk ax ay)))
      else Ok None) ;;
   fourThirds <- Fin 4 / Fin 3 ;;
   let airBuoyancy :=
     Fin AIR_DENSITY * Fin GRAVITY * (fourThirds * Math_PI * ncube (prop Material.radius obj)) in
   let buoyancy :=
     Force.mk (parseFloat_toFixed 6 airBuoyancy) (Some "upward"%string)
              (Vector.mk 0 airBuoyancy) in
   let netForce :=
     Vector.mk
       (Vector.x (Force.vector gravity) + optionalComponent Vector.x airResistance
        + Vector.x (Force.vector buoyancy))
       (Vector.y (Force.vector gravity) + optionalComponent Vector.y airResistance
        + Vector.y (Force.vector buoyancy)) in
   let net :=
     Force.mk
       (parseFloat_toFixed 3
          (Math_sqrt (nsq (Vector.x netForce) + nsq (Vector.y netForce))))
       None
       (Vector.mk (parseFloat_toFixed 3 (Vector.x netForce))
                  (parseFloat_toFixed 3 (Vector.y netForce))) in
   Ok (Forces.mk gravity airResistance buoyancy net))%js.

(** ** Vocabulary of the properties *)

(** The ranges a catalog entry is expected to respect. *)
Definition well_formed (m : Material.t) : Prop :=
  0 < Material.mass m /\ 0 < Material.radius m
  /\ 0 <= Material.bounciness m <= 1.

(** The value a collision parameter ends up with, said in words: the one of
    [obj2] if it has the property, else the one of [obj1], else the
    default. *)
Definition winner {A : Type} (d : A) (p1 p2 : option A) : A :=
  match p2 with
  | Some v => v
  | None => match p1 with
            | Some v => v
            | None => d
            end
  end.






(** A collision request whose objects carry all five parameters between
    them. *)
Definition collision_input (obj1 obj2 : CollisionObject.t)
  (m1 : R) (v1x v1y : R) (m2 : R) (v2x v2y : R) (e : R) : Prop :=
  spread obj1 obj2 =
  CollisionObject.mk (Some m1) (Some (Vector.mk v1x v1y))
                     (Some m2) (Some (Vector.mk v2x v2y)) (Some e).

(** The request of the README and of the tests: two bodies of 2 kg and
    1 kg, the first at 10 m/s, the second at rest, restitution 1. *)
Definition example_obj1 : CollisionObject.t :=
  CollisionObject.mk (Some 2) (Some (Vector.mk 10 0)) None None None.
Definition example_obj2 : CollisionObject.t :=
  CollisionObject.mk None None (Some 1) (Some (Vector.mk 0 0)) (Some 1).



(** The request [{ mass: 2, material: "rock" }] to [calculateForces]. *)
Definition rock_of_two_kilograms : ForceParams.t :=
  ForceParams.mk (Some 2) None None (Some "rock"%string) None.

(** The sample budget of the integrator: the turn that starts at
    [t = 300] still runs. *)
Definition MAX_SAMPLES : nat := Z.to_nat 30001.

(** The time a sample reports does not exceed 300 s. *)
Definition time_within_cutoff (sample : Sample.t) : Prop :=
  exists time, Sample.time sample = Fin time /\ time <= 300.

(** The loop body on finite numbers and a material of the catalog, written
    on the reals: what [step] computes there (lemma [step_finite]). *)
Section BodyOnReals.
Variable m : Material.t.
Variables rho g wx wy : R.

Definition relative_speed (vx vy : R) : R :=
  sqrt ((vx - wx) * (vx - wx) + (vy - wy) * (vy - wy)).

Definition drag_magnitude (vx vy : R) : R :=
  0.5 * Material.dragCoeff m * rho
  * (PI * Material.radius m * Material.radius m)
  * relative_speed vx vy * relative_speed vx vy.

Definition drag_component (vx vy axis : R) : R :=
  if Rlt_dec 0 (relative_speed vx vy)
  then - drag_magnitude vx vy * (axis / relative_speed vx vy) / Material.mass m
  else 0.

Definition next_vx (vx vy : R) : R :=
  vx + drag_component vx vy (vx - wx) * dt.

Definition next_vy (vx vy : R) : R :=
  vy + (- g + drag_component vx vy (vy - wy)) * dt.

Definition next_x (x vx vy : R) : R := x + next_vx vx vy * dt.
Definition next_y (y vx vy : R) : R := y + next_vy vx vy * dt.

Definition next_state (x y vx vy t : R) : State.t :=
  State.mk (Fin (next_x x vx vy)) (Fin (next_y y vx vy))
           (Fin (next_vx vx vy)) (Fin (next_vy vx vy)) (Fin (t + dt)).

Definition next_sample (x y vx vy t : R) : Sample.t :=
  Sample.mk (Fin (toFixed 3 t))
            (Fin (toFixed 3 (next_x x vx vy)))
            (Fin (toFixed 3 (next_y y vx vy)))
            (Fin (toFixed 3 (next_vx vx vy)))
            (Fin (toFixed 3 (next_vy vx vy)))
            (Fin (toFixed 3 (sqrt (next_vx vx vy * next_vx vx vy
                                   + next_vy vx vy * next_vy vx vy)))).
End BodyOnReals.

(** Parameters of a long fall: a basketball thrown at 10 m/s, the other
    parameters left to their defaults, from a height of 1000 km. *)
Definition long_fall : TrajectoryParams.t :=
  TrajectoryParams.mk (Some 1000000) (Some 10) None None None None None None.

(** A horizontal throw at ground level against a wind of the given speed:
    1 m/s, the custom material, the wind blowing from ahead. *)
Definition level_throw (windSpeed : R) : TrajectoryParams.t :=
  TrajectoryParams.mk (Some 0) (Some 1) (Some 0) (Some "custom"%string)
                      (Some windSpeed) (Some 180) None None.


(** What the loop keeps true along the long fall, at turn [k]: the
    velocity is bounded and the ball still far above the ground. *)
Definition falling (k : R) (s : State.t) : Prop :=
  exists x y vx vy,
    s = State.mk (Fin x) (Fin y) (Fin vx) (Fin vy) (Fin (k * dt))
    /\ - 10 <= vx <= 10
    /\ - (10 + 9.81 * (k * dt)) <= vy <= 10 + 9.81 * (k * dt)
    /\ 1000000 - 30 * k <= y.

Definition basketball : Material.t := Material.mk 0.624 0.1194 0.47 0.85.

(** The request the collision route documents: positive masses. *)
Definition positive_masses (m1 m2 : R) : Prop := 0 < m1 /\ 0 < m2.

(** [a < b] on numbers, and on the ranges of two trajectories. *)
Definition nlt (a b : num) : Prop :=
  match a, b with
  | Fin p, Fin q => p < q
  | _, _ => False
  end.



(** ** The routes *)

(** What a route answers: [res.json(...)] (200), [res.status(400)] or the
    [catch] branch, [res.status(500)]. *)
Inductive response (A : Type) : Type :=
| Json (body : A)
| BadRequest (error : string)
| ServerError (error : string).

Arguments Json {A} body.
Arguments BadRequest {A} error.
Arguments ServerError {A} error.

(** [Math.max(first, ...rest)]: [NaN] as soon as one argument is. *)
Definition nmax : num -> num -> num := lift2 Rmax.

Definition Math_max (first : num) (rest : list num) : num :=
  fold_left nmax rest first.

(** *** GET /api/materials *)

Module MaterialInfo.
Record t : Type := mk { name : string; properties : option jsobject }.
End MaterialInfo.

Module MaterialsBody.
Record t : Type := mk { materials : list MaterialInfo.t; count : nat }.
End MaterialsBody.

(** [Object.keys(MATERIALS)]: the own names, in the order of the literal. *)
Definition MATERIALS_keys : list string := map fst MATERIALS.

Definition get_api_materials : response MaterialsBody.t :=
  let materialsInfo :=
    map (fun key => MaterialInfo.mk key (MATERIALS_get key)) MATERIALS_keys in
  Json (MaterialsBody.mk materialsInfo (length materialsInfo)).

(** *** POST /api/trajectory *)

Module TrajectoryRequest.
Record t : Type := mk
  { params : TrajectoryParams.t;
    impactSurface : option string }.
End TrajectoryRequest.

Module LandingVelocity.
Record t : Type := mk { x : num; y : num; magnitude : num }.
End LandingVelocity.

Module Summary.
Record t : Type := mk
  { maxHeight : num;
    range : num;
    flightTime : num;
    landingVelocity : LandingVelocity.t }.
End Summary.

Module TrajectoryResults.
Record t : Type := mk
  { trajectory : list Sample.t;
    summary : Summary.t;
    impact : ImpactResult.t;
    parameters : TrajectoryRequest.t }.
End TrajectoryResults.

(** [!v || v <= 0] on a number of the request body. *)
Definition missing_or_nonpositive (v : option R) : bool :=
  match v with
  | None => true
  | Some x => if Rle_dec x 0 then true else false
  end.

(** [a < -90 || a > 90]; both comparisons are false on [undefined]. *)
Definition outside_launch_angles (a : option R) : bool :=
  match a with
  | None => false
  | Some x => if Rlt_dec x (-90) then true
              else if Rlt_dec 90 x then true else false
  end.

Definition post_api_trajectory (fuel : nat) (body : TrajectoryRequest.t)
  : result (response TrajectoryResults.t) :=
  let params := TrajectoryRequest.params body in
  if missing_or_nonpositive (TrajectoryParams.initialVelocity params) then
    Ok (BadRequest "Initial velocity must be greater than 0")
  else if outside_launch_angles (TrajectoryParams.launchAngle params) then
    Ok (BadRequest "Launch angle must be between -90 and 90 degrees")
  else
    trajectory <- calculateTrajectory fuel params ;;
    match trajectory with
    | [] =>
        (* finalPoint is undefined: reading finalPoint.x throws *)
        Ok (ServerError "Internal server error during trajectory calculation")
    | first :: rest =>
        let finalPoint := last rest first in
        let maxHeight := Math_max (Sample.y first) (map Sample.y rest) in
        let range := Sample.x finalPoint in
        let flightTime := Sample.time finalPoint in
        impact <- calculateImpact
                    (Velocity.mk (Sample.vx finalPoint) (Sample.vy finalPoint))
                    (TrajectoryParams.material params)
                    (TrajectoryRequest.impactSurface body) ;;
        Ok (Json (TrajectoryResults.mk
                    trajectory
                    (Summary.mk
                       (parseFloat_toFixed 3 maxHeight)
                       (parseFloat_toFixed 3 range)
                       (parseFloat_toFixed 3 flightTime)
                       (LandingVelocity.mk (Sample.vx finalPoint)
                                           (Sample.vy finalPoint)
                                           (Sample.speed finalPoint)))
                    impact
                    body))
    end.

(** *** POST /api/collision *)

Module CollisionRequest.
Record t : Type := mk
  { object1 : option CollisionObject.t;
    object2 : option CollisionObject.t }.
End CollisionRequest.

Definition post_api_collision (body : CollisionRequest.t)
  : result (response CollisionResult.t) :=
  match CollisionRequest.object1 body, CollisionRequest.object2 body with
  | Some object1, Some object2 =>
      collision <- calculateCollision object1 object2 ;;
      Ok (Json collision)
  | _, _ => Ok (BadRequest "Both object1 and object2 parameters are required")
  end.

(** *** POST /api/forces *)

Definition post_api_forces (params : ForceParams.t) : result (response Forces.t) :=
  forces <- calculateForces params ;;
  Ok (Json forces).

(** *** POST /api/quick-throw *)

Module QuickThrowRequest.
Record t : Type := mk
  { scenario : option string;
    height : option R;
    velocity : option R;
    angle : option R }.
End QuickThrowRequest.

Module Scenario.
Record t : Type := mk
  { material : option string;
    height : option R;
    angle : option R }.
End Scenario.

Definition scenarios : list (string * Scenario.t) :=
  [ ("balcony_ball", Scenario.mk (Some "basketball") (Some 10) (Some 15));
    ("football_field", Scenario.mk (Some "soccer") (Some 0) (Some 30));
    ("baseball_pitch", Scenario.mk (Some "baseball") (Some 1.5) (Some 0));
    ("paper_airplane", Scenario.mk (Some "paper_airplane") (Some 1.5) (Some 10)) ]%string.

(** [scenarios[scenario] || { material: 'basketball' }]; a member inherited
    from [Object.prototype] is truthy and has neither material, height nor
    angle. *)
Definition scenario_config (scenario : option string) : Scenario.t :=
  let key := default "undefined"%string scenario in
  match own_property key scenarios with
  | Some config => config
  | None =>
      if existsb (String.eqb key) Object_prototype
      then Scenario.mk None None None
      else Scenario.mk (Some "basketball"%string) None None
  end.

(** [configured || requested] on numbers: 0 and [undefined] are falsy. *)
Definition or_else (configured : option R) (requested : R) : R :=
  match configured with
  | Some v => if Req_dec_T v 0 then requested else v
  | None => requested
  end.

(** The parameters the route builds for the integrator. *)
Definition quick_throw_params (body : QuickThrowRequest.t) : TrajectoryParams.t :=
  let height := default 0 (QuickThrowRequest.height body) in
  let velocity := default 10 (QuickThrowRequest.velocity body) in
  let angle := default 45 (QuickThrowRequest.angle body) in
  let config := scenario_config (QuickThrowRequest.scenario body) in
  TrajectoryParams.mk
    (Some (or_else (Scenario.height config) height))
    (Some velocity)
    (Some (or_else (Scenario.angle config) angle))
    (Scenario.material config)
    (Some 0) (Some 0) None None.

Module QuickThrowResults.
Record t : Type := mk
  { landingDistance : num;
    flightTime : num;
    maxHeight : num;
    impactSpeed : num;
    impactForce : num;
    safetyWarning : option string }.
End QuickThrowResults.

Module QuickThrowBody.
Record t : Type := mk
  { scenario : option string;
    results : QuickThrowResults.t }.
End QuickThrowBody.

Definition post_api_quick_throw (fuel : nat) (body : QuickThrowRequest.t)
  : result (response QuickThrowBody.t) :=
  let params := quick_throw_params body in
  trajectory <- calculateTrajectory fuel params ;;
  match trajectory with
  | [] =>
      (* finalPoint is undefined: reading finalPoint.vx throws *)
      Ok (ServerError "Internal server error during quick calculation")
  | first :: rest =>
      let finalPoint := last rest first in
      impact <- calculateImpact
                  (Velocity.mk (Sample.vx finalPoint) (Sample.vy finalPoint))
                  (TrajectoryParams.material params) None ;;
      Ok (Json (QuickThrowBody.mk
                  (QuickThrowRequest.scenario body)
                  (QuickThrowResults.mk
                     (parseFloat_toFixed 2 (Sample.x finalPoint))
                     (parseFloat_toFixed 2 (Sample.time finalPoint))
                     (parseFloat_toFixed 2
                        (Math_max (Sample.y first) (map Sample.y rest)))
                     (ImpactResult.impactSpeed impact)
                     (ImpactResult.impactForce impact)
                     (if ngtb (ImpactResult.impactForce impact) (Fin 1000)
                      then Some "High impact force - exercise caution"%string
                      else None))))
  end.

(** ** One run of the loop *)

(** The samples the loop pushes from a state on: it stops because the
    projectile is below the ground (or its height is [NaN]), or because the
    clock has passed 300 s, or it takes another turn. *)
Inductive run (obj : jsobject) (airDensity gravity windX windY : num)
  : State.t -> list Sample.t -> Prop :=
| run_landed s :
    ngeb (State.y s) (Fin 0) = false ->
    run obj airDensity gravity windX windY s []
| run_cutoff s s' p :
    ngeb (State.y s) (Fin 0) = true ->
    step obj airDensity gravity windX windY s = Ok (s', p) ->
    ngtb (State.t_ s') (Fin 300) = true ->
    run obj airDensity gravity windX windY s [p]
| run_turn s s' p rest :
    ngeb (State.y s) (Fin 0) = true ->
    step obj airDensity gravity windX windY s = Ok (s', p) ->
    ngtb (State.t_ s') (Fin 300) = false ->
    run obj airDensity gravity windX windY s' rest ->
    run obj airDensity gravity windX windY s (p :: rest).


(** [a <= b] on numbers. *)
Definition nle (a b : num) : Prop :=
  match a, b with
  | Fin p, Fin q => p <= q
  | _, _ => False
  end.




(** One component of the drag force on finite numbers: what
    [airResistanceComponent] computes there. *)
Definition air_resistance_axis (dragMagnitude speed velocityAxis : R) : R :=
  if Rlt_dec 0 speed then toFixed 3 (- dragMagnitude * velocityAxis / speed)
  else 0.

(** The drag magnitude of [calculateForces] on a finite velocity. *)
Definition force_drag_magnitude (m : Material.t) (vx vy : R) : R :=
  0.5 * Material.dragCoeff m * AIR_DENSITY
  * (PI * Material.radius m * Material.radius m)
  * sqrt (vx ^ 2 + vy ^ 2) * sqrt (vx ^ 2 + vy ^ 2).

(** The buoyancy of [calculateForces]. *)
Definition air_buoyancy (m : Material.t) : R :=
  AIR_DENSITY * GRAVITY * (4 / 3 * PI * Material.radius m ^ 3).

(** The request for the forces on a material at rest, all else left to the
    defaults. *)
Definition at_rest (name : string) : ForceParams.t :=
  ForceParams.mk None None None (Some name) None.

(** What the trajectory route checks before it computes. *)
Definition positive_velocity (params : TrajectoryParams.t) : Prop :=
  exists v, TrajectoryParams.initialVelocity params = Some v /\ 0 < v.

Definition allowed_angle (params : TrajectoryParams.t) : Prop :=
  forall a, TrajectoryParams.launchAngle params = Some a -> - 90 <= a <= 90.

(** A number that [toFixed(3)] has produced. *)
Definition rounded (a : num) : Prop := parseFloat_toFixed 3 a = a.

(** The height the quick-throw route launches from. *)
Definition quick_throw_height (body : QuickThrowRequest.t) : R :=
  or_else (Scenario.height (scenario_config (QuickThrowRequest.scenario body)))
          (default 0 (QuickThrowRequest.height body)).

(** * Properties *)

(** ** Rounding *)


Lemma pow10_pos (d : nat) : 0 < 10 ^ d.
Proof. apply pow_lt; lra. Qed.

(** Inside the printing range and for a magnitude whose scaled value falls in
    [n - 1/2, n + 1/2), [toFixed] gives [n / 10^d] with the sign of [x]. *)
Lemma toFixed_pos (d : nat) (x : R) (n : Z) :
  0 <= x -> x < 10 ^ 21 ->
  IZR n <= x * 10 ^ d + / 2 < IZR n + 1 ->
  toFixed d x = IZR n / 10 ^ d.
Proof.
  intros Hx Hbig Hn. unfold toFixed.
  rewrite (Rabs_pos_eq x Hx).
  destruct (Rle_dec (10 ^ 21) x) as [Hle | _]; [lra |].
  destruct (Rlt_dec x 0) as [Hneg | _]; [lra |].
  now rewrite (Zfloor_eq n).
Qed.

(** [rounds_to n]: the number under [toFixed 3] in the goal prints as
    [n / 1000]. *)
Ltac rounds_to n := rewrite (toFixed_pos 3 _ n); simpl; lra.

Lemma toFixed_neg (d : nat) (x : R) (n : Z) :
  x < 0 -> - 10 ^ 21 < x ->
  IZR n <= - x * 10 ^ d + / 2 < IZR n + 1 ->
  toFixed d x = - (IZR n / 10 ^ d).
Proof.
  intros Hx Hbig Hn. unfold toFixed.
  rewrite (Rabs_left x Hx).
  destruct (Rle_dec (10 ^ 21) (- x)) as [Hle | _]; [lra |].
  destruct (Rlt_dec x 0) as [_ | Hpos]; [| lra].
  now rewrite (Zfloor_eq n).
Qed.

Lemma toFixed_nonneg (d : nat) (x : R) : 0 <= x -> 0 <= toFixed d x.
Proof.
  intros Hx. unfold toFixed.
  destruct (Rle_dec (10 ^ 21) (Rabs x)) as [_ | _]; [exact Hx |].
  destruct (Rlt_dec x 0) as [Hneg | _]; [lra |].
  apply Rmult_le_pos; [| left; apply Rinv_0_lt_compat, pow10_pos].
  apply IZR_le, Zfloor_lub.
  pose proof (Rabs_pos x). pose proof (pow10_pos d). simpl. nra.
Qed.

Lemma toFixed_nonpos (d : nat) (x : R) : x <= 0 -> toFixed d x <= 0.
Proof.
  intros Hx. unfold toFixed.
  destruct (Rle_dec (10 ^ 21) (Rabs x)) as [_ | _]; [exact Hx |].
  assert (Hn : 0 <= IZR (Zfloor (Rabs x * 10 ^ d + / 2)) / 10 ^ d).
  { apply Rmult_le_pos; [| left; apply Rinv_0_lt_compat, pow10_pos].
    apply IZR_le, Zfloor_lub.
    pose proof (Rabs_pos x). pose proof (pow10_pos d). simpl. nra. }
  destruct (Rlt_dec x 0) as [_ | Hge]; [lra |].
  assert (x = 0) by lra. subst x.
  rewrite Rabs_R0, Rmult_0_l, (Zfloor_eq 0); [unfold Rdiv; simpl; lra | simpl; lra].
Qed.


(** A time not above 300 s is not printed above 300 s. *)
Lemma toFixed3_le_300 (x : R) : x <= 300 -> toFixed 3 x <= 300.
Proof.
  intros Hx.
  destruct (Rlt_dec x 0) as [Hneg | Hpos].
  - pose proof (toFixed_nonpos 3 x). lra.
  - unfold toFixed. rewrite (Rabs_pos_eq x) by lra.
    destruct (Rle_dec (10 ^ 21) x) as [_ | _]; [exact Hx |].
    destruct (Rlt_dec x 0) as [Hneg | _]; [lra |].
    assert (E : 10 ^ 3 = 1000) by (simpl; lra). rewrite E.
    assert (Hn : (Zfloor (x * 1000 + / 2) <= 300000)%Z).
    { rewrite <- (Zfloor_eq 300000 (300 * 1000 + / 2)) by lra.
      apply Zfloor_le. lra. }
    apply IZR_le in Hn. lra.
Qed.

Lemma toFixed_opp (d : nat) (x : R) : toFixed d (- x) = - toFixed d x.
Proof.
  unfold toFixed. rewrite Rabs_Ropp.
  destruct (Rle_dec (10 ^ 21) (Rabs x)) as [_ | _]; [reflexivity |].
  destruct (Rlt_dec (- x) 0) as [Hn | Hn], (Rlt_dec x 0) as [Hp | Hp];
    try lra.
  assert (x = 0) by lra. subst x.
  rewrite Rabs_R0, Rmult_0_l, (Zfloor_eq 0) by lra. unfold Rdiv. lra.
Qed.

Lemma toFixed_monotone_nonneg (d : nat) (x y : R) :
  0 <= x -> x <= y -> toFixed d x <= toFixed d y.
Proof.
  intros Hx Hxy. pose proof (pow10_pos d) as Hd.
  assert (Hinv : 0 < / 10 ^ d) by now apply Rinv_0_lt_compat.
  unfold toFixed. rewrite (Rabs_pos_eq x), (Rabs_pos_eq y) by lra.
  destruct (Rlt_dec x 0) as [Hn | _]; [lra |].
  destruct (Rlt_dec y 0) as [Hn | _]; [lra |].
  destruct (Rle_dec (10 ^ 21) x) as [Hbx | Hbx],
           (Rle_dec (10 ^ 21) y) as [Hby | Hby]; try lra.
  - pose proof (Zfloor_bound (x * 10 ^ d + / 2)) as [Hlo _].
    set (n := Zfloor (x * 10 ^ d + / 2)) in *.
    set (N := (10 ^ Z.of_nat 21 * 10 ^ Z.of_nat d)%Z).
    assert (HN : IZR N = 10 ^ 21 * 10 ^ d).
    { unfold N. now rewrite mult_IZR, <- !pow_IZR. }
    assert (Hn : (n <= N)%Z).
    { assert (Hlt : (n < N + 1)%Z); [| lia].
      apply lt_IZR. rewrite plus_IZR, HN. nra. }
    apply IZR_le in Hn. rewrite HN in Hn.
    apply Rle_trans with (10 ^ 21); [| lra].
    unfold Rdiv. replace (10 ^ 21) with (10 ^ 21 * 10 ^ d * / 10 ^ d)
      by (field; lra).
    apply Rmult_le_compat_r; lra.
  - assert (Hfl : (Zfloor (x * 10 ^ d + / 2) <= Zfloor (y * 10 ^ d + / 2))%Z)
      by (apply Zfloor_le; nra).
    apply IZR_le in Hfl. unfold Rdiv. apply Rmult_le_compat_r; lra.
Qed.

(** Rounding keeps the order, if not its strictness. *)
Lemma toFixed_monotone (d : nat) (x y : R) :
  x <= y -> toFixed d x <= toFixed d y.
Proof.
  intros Hxy.
  destruct (Rle_dec 0 x) as [Hx | Hx].
  - now apply toFixed_monotone_nonneg.
  - destruct (Rle_dec 0 y) as [Hy | Hy].
    + pose proof (toFixed_nonpos d x). pose proof (toFixed_nonneg d y). lra.
    + pose proof (toFixed_monotone_nonneg d (- y) (- x)) as H.
      rewrite !toFixed_opp in H. lra.
Qed.

(** ** The material catalog *)

Lemma own_property_In {A : Type} (key : string) (o : list (string * A)) (v : A) :
  own_property key o = Some v -> In (key, v) o.
Proof.
  induction o as [| [k w] o IH]; cbn [own_property]; [discriminate |].
  destruct (String.eqb key k) eqn:E.
  - intros [= <-]. apply String.eqb_eq in E. subst k. now left.
  - intros H. right. now apply IH.
Qed.

Lemma MATERIALS_well_formed :
  Forall (fun entry => well_formed (snd entry)
                       /\ 0 < Material.dragCoeff (snd entry)
                       /\ 0 < Material.bounciness (snd entry)) MATERIALS.
Proof.
  unfold MATERIALS, MATERIALS_custom, well_formed.
  repeat constructor; cbn [snd Material.mass Material.radius Material.dragCoeff
                               Material.bounciness]; lra.
Qed.

(** A name of the catalog resolves to its own entry, which respects the
    ranges. *)
Lemma lookupMaterial_catalog (name : string) (m : Material.t) :
  own_property name MATERIALS = Some m ->
  lookupMaterial name = MaterialObj m
  /\ well_formed m /\ 0 < Material.dragCoeff m /\ 0 < Material.bounciness m.
Proof.
  intros H. split.
  - unfold lookupMaterial, MATERIALS_get. now rewrite H.
  - apply own_property_In in H.
    pose proof MATERIALS_well_formed as W. rewrite Forall_forall in W.
    exact (W _ H).
Qed.

(** A name that is neither in the catalog nor inherited resolves to the
    custom entry. *)
Lemma lookupMaterial_fallback (name : string) :
  own_property name MATERIALS = None ->
  existsb (String.eqb name) Object_prototype = false ->
  lookupMaterial name = MaterialObj MATERIALS_custom.
Proof.
  intros H1 H2. unfold lookupMaterial, MATERIALS_get. now rewrite H1, H2.
Qed.

(** Every name resolves to a well-formed material or to an inherited
    member. *)
Lemma lookupMaterial_cases (name : string) :
  (exists m, lookupMaterial name = MaterialObj m /\ well_formed m
             /\ 0 < Material.bounciness m)
  \/ lookupMaterial name = Inherited name.
Proof.
  destruct (own_property name MATERIALS) as [m |] eqn:Hown.
  - left. exists m. destruct (lookupMaterial_catalog name m Hown) as (? & ? & ? & ?).
    auto.
  - destruct (existsb (String.eqb name) Object_prototype) eqn:Hproto.
    + right. unfold lookupMaterial, MATERIALS_get. now rewrite Hown, Hproto.
    + left. exists MATERIALS_custom.
      split; [now apply lookupMaterial_fallback |].
      unfold well_formed, MATERIALS_custom; cbn; lra.
Qed.

Lemma lookupMaterial_mass_nonzero (name : string) :
  prop Material.mass (lookupMaterial name) <> Fin 0.
Proof.
  destruct (lookupMaterial_cases name) as [(m & -> & (Hm & _) & _) | ->];
    cbn [prop]; [| discriminate].
  intros [= E]. lra.
Qed.

Example lookup_rock :
  lookupMaterial "rock" = MaterialObj (Material.mk 0.5 0.05 0.47 0.2).
Proof. reflexivity. Qed.

Example lookup_unknown : lookupMaterial "feather" = MaterialObj MATERIALS_custom.
Proof. reflexivity. Qed.

(** C7, at the name [toString]: it is not in the catalog, yet the lookup
    does not give the custom entry but the member inherited from
    [Object.prototype], whose mass, radius, drag coefficient and bounciness
    are all [undefined]. *)
Theorem lookupMaterial_inherited_member :
  own_property "toString" MATERIALS = None
  /\ lookupMaterial "toString" = Inherited "toString"
  /\ lookupMaterial "toString" <> MaterialObj MATERIALS_custom
  /\ prop Material.mass (lookupMaterial "toString") = NaN
  /\ prop Material.radius (lookupMaterial "toString") = NaN
  /\ prop Material.dragCoeff (lookupMaterial "toString") = NaN
  /\ prop Material.bounciness (lookupMaterial "toString") = NaN.
Proof.
  repeat split; try reflexivity. discriminate.
Qed.

(** ** Numbers *)

Lemma ndiv_Fin (x y : R) : y <> 0 -> ndiv (Fin x) (Fin y) = Ok (Fin (x / y)).
Proof.
  intros Hy. unfold ndiv.
  destruct (Req_dec_T y 0) as [E | _]; [contradiction | reflexivity].
Qed.

Lemma Math_sqrt_Fin (x : R) : 0 <= x -> Math_sqrt (Fin x) = Fin (sqrt x).
Proof.
  intros Hx. unfold Math_sqrt.
  destruct (Rle_dec 0 x) as [_ | Hn]; [reflexivity | contradiction].
Qed.

Lemma sum_squares_nonneg (a b : R) : 0 <= a ^ 2 + b ^ 2.
Proof. nra. Qed.

(** ** calculateCollision *)

Section CollisionFacts.
Variables m1 m2 e v1x v1y v2x v2y : R.
Hypothesis total_nonzero : m1 + m2 <> 0.

Lemma v1Final_value :
  v1Final m1 m2 e (Vector.mk v1x v1y) (Vector.mk v2x v2y) =
  Ok (Vector.mk (Fin (v1x - 2 * m2 / (m1 + m2) * (v1x - v2x) * e))
                (Fin (v1y - 2 * m2 / (m1 + m2) * (v1y - v2y) * e))).
Proof.
  unfold v1Final, totalMass, relativeVelocity.
  cbn [Vector.x Vector.y nadd nsub nmul lift2].
  rewrite ndiv_Fin by assumption. reflexivity.
Qed.

Lemma v2Final_value :
  v2Final m1 m2 e (Vector.mk v1x v1y) (Vector.mk v2x v2y) =
  Ok (Vector.mk (Fin (v2x + 2 * m1 / (m1 + m2) * (v1x - v2x) * e))
                (Fin (v2y + 2 * m1 / (m1 + m2) * (v1y - v2y) * e))).
Proof.
  unfold v2Final, totalMass, relativeVelocity.
  cbn [Vector.x Vector.y nadd nsub nmul lift2].
  rewrite ndiv_Fin by assumption. reflexivity.
Qed.

Lemma collide_value :
  collide m1 m2 e (Vector.mk v1x v1y) (Vector.mk v2x v2y) =
  Ok (CollisionResult.mk
        (Vector.mk (Fin (toFixed 3 (v1x - 2 * m2 / (m1 + m2) * (v1x - v2x) * e)))
                   (Fin (toFixed 3 (v1y - 2 * m2 / (m1 + m2) * (v1y - v2y) * e))))
        (Vector.mk (Fin (toFixed 3 (v2x + 2 * m1 / (m1 + m2) * (v1x - v2x) * e)))
                   (Fin (toFixed 3 (v2y + 2 * m1 / (m1 + m2) * (v1y - v2y) * e))))
        (Fin (toFixed 3
           (0.5 * m1 * (v1x ^ 2 + v1y ^ 2) + 0.5 * m2 * (v2x ^ 2 + v2y ^ 2)
            - (0.5 * m1 * ((v1x - 2 * m2 / (m1 + m2) * (v1x - v2x) * e) ^ 2
                           + (v1y - 2 * m2 / (m1 + m2) * (v1y - v2y) * e) ^ 2)
               + 0.5 * m2 * ((v2x + 2 * m1 / (m1 + m2) * (v1x - v2x) * e) ^ 2
                             + (v2y + 2 * m1 / (m1 + m2) * (v1y - v2y) * e) ^ 2)))))
        (Fin (toFixed 3
           (m1 * sqrt ((v1x - v2x) ^ 2 + (v1y - v2y) ^ 2) / 0.01)))).
Proof.
  unfold collide. rewrite v1Final_value, v2Final_value.
  unfold relativeVelocity, kineticEnergy. cbn [bind Vector.x Vector.y].
  unfold nsq, nsub, nadd, nmul, lift1, lift2, parseFloat_toFixed.
  rewrite Math_sqrt_Fin by apply sum_squares_nonneg.
  rewrite ndiv_Fin by lra. reflexivity.
Qed.

(** The energy given up in the collision, before rounding. *)
Lemma energy_balance :
  0.5 * m1 * (v1x ^ 2 + v1y ^ 2) + 0.5 * m2 * (v2x ^ 2 + v2y ^ 2)
  - (0.5 * m1 * ((v1x - 2 * m2 / (m1 + m2) * (v1x - v2x) * e) ^ 2
                 + (v1y - 2 * m2 / (m1 + m2) * (v1y - v2y) * e) ^ 2)
     + 0.5 * m2 * ((v2x + 2 * m1 / (m1 + m2) * (v1x - v2x) * e) ^ 2
                   + (v2y + 2 * m1 / (m1 + m2) * (v1y - v2y) * e) ^ 2))
  = 2 * m1 * m2 / (m1 + m2) * (e * (1 - e))
    * ((v1x - v2x) ^ 2 + (v1y - v2y) ^ 2).
Proof. replace 0.5 with (1 / 2) by lra. field. assumption. Qed.

End CollisionFacts.

Lemma calculateCollision_input obj1 obj2 m1 v1x v1y m2 v2x v2y e :
  collision_input obj1 obj2 m1 v1x v1y m2 v2x v2y e ->
  calculateCollision obj1 obj2 =
  collide m1 m2 e (Vector.mk v1x v1y) (Vector.mk v2x v2y).
Proof.
  unfold collision_input, calculateCollision. intros ->. reflexivity.
Qed.

Lemma default_spread {A : Type} (d : A) (p1 p2 : option A) :
  default d (spread_property p1 p2) = winner d p1 p2.
Proof. destruct p1, p2; reflexivity. Qed.











(** C10: the result is a function of the merged record alone; each of the
    five parameters is the one of [obj2] when it has it, else the one of
    [obj1], else its default: 1, (10, 0), 1, (-5, 0), 0.8. *)
Theorem calculateCollision_spread (obj1 obj2 : CollisionObject.t) :
  calculateCollision obj1 obj2
  = collide
      (Fin (winner 1 (CollisionObject.mass1 obj1) (CollisionObject.mass1 obj2)))
      (Fin (winner 1 (CollisionObject.mass2 obj1) (CollisionObject.mass2 obj2)))
      (Fin (winner 0.8 (CollisionObject.restitution obj1)
                       (CollisionObject.restitution obj2)))
      (winner (Vector.mk 10 0) (CollisionObject.velocity1 obj1)
                               (CollisionObject.velocity1 obj2))
      (winner (Vector.mk (-5) 0) (CollisionObject.velocity2 obj1)
                                 (CollisionObject.velocity2 obj2))
  /\ calculateCollision obj1 obj2
     = calculateCollision (spread obj1 obj2) CollisionObject.empty
  /\ (forall obj1' obj2',
         spread obj1 obj2 = spread obj1' obj2' ->
         calculateCollision obj1 obj2 = calculateCollision obj1' obj2').
Proof.
  split; [| split].
  - unfold calculateCollision, spread.
    cbn [CollisionObject.mass1 CollisionObject.mass2 CollisionObject.velocity1
         CollisionObject.velocity2 CollisionObject.restitution].
    now rewrite !default_spread.
  - unfold calculateCollision. f_equal; f_equal; f_equal;
      destruct obj1 as [a1 b1 c1 d1 e1], obj2 as [a2 b2 c2 d2 e2];
      cbn; try destruct a2; try destruct b2; try destruct c2;
      try destruct d2; try destruct e2; reflexivity.
  - intros obj1' obj2' Heq. unfold calculateCollision. now rewrite Heq.
Qed.

Lemma calculateCollision_spread_witness :
  calculateCollision example_obj1 example_obj2
  = calculateCollision
      (CollisionObject.mk (Some 5) (Some (Vector.mk 10 0)) None None (Some 0.3))
      (CollisionObject.mk (Some 2) None (Some 1) (Some (Vector.mk 0 0)) (Some 1)).
Proof.
  apply (proj2 (proj2 (calculateCollision_spread example_obj1 example_obj2))).
  reflexivity.
Defined.

(** ** calculateForces *)

Lemma ndiv_Ok (a b : num) : b <> Fin 0 -> exists q, ndiv a b = Ok q.
Proof.
  intros Hb. unfold ndiv. destruct b as [y |]; [| now eexists].
  destruct (Req_dec_T y 0) as [-> | _]; [now contradict Hb | now eexists].
Qed.

Lemma ngtb_zero_nonzero (a : num) : ngtb a (Fin 0) = true -> a <> Fin 0.
Proof.
  destruct a as [x |]; cbn [ngtb]; [| discriminate].
  destruct (Rlt_dec 0 x) as [Hx | _]; [| discriminate].
  intros _ [= E]. lra.
Qed.

Lemma airResistanceComponent_Ok (dragMagnitude speed velocityAxis : num) :
  exists c, airResistanceComponent dragMagnitude speed velocityAxis = Ok c.
Proof.
  unfold airResistanceComponent.
  destruct (ngtb speed (Fin 0)) eqn:Hspeed; [| now eexists].
  destruct (ndiv_Ok (nmul (nneg dragMagnitude) velocityAxis) speed) as [q ->];
    [now apply ngtb_zero_nonzero |].
  now eexists.
Qed.

(** Whatever the parameters, the forces are computed, and the gravity
    vector is built on the mass of the looked-up material. *)
Lemma calculateForces_gravity (params : ForceParams.t) :
  exists forces,
    calculateForces params = Ok forces
    /\ Force.vector (Forces.gravity forces)
       = Vector.mk (Fin 0)
           (nmul (nneg (prop Material.mass
                          (lookupMaterial
                             (default "basketball"%string
                                      (ForceParams.material params)))))
                 (Fin GRAVITY)).
Proof.
  unfold calculateForces.
  set (obj := lookupMaterial _).
  rewrite (ndiv_Fin 4 3) by lra.
  destruct (default true (ForceParams.includeAirResistance params)).
  - set (dm := nmul _ _).
    set (speed := Math_sqrt _).
    destruct (airResistanceComponent_Ok dm speed
                (Vector.x (default (Vector.mk 0 0) (ForceParams.velocity params))))
      as [ax ->].
    destruct (airResistanceComponent_Ok dm speed
                (Vector.y (default (Vector.mk 0 0) (ForceParams.velocity params))))
      as [ay ->].
    cbn [bind]. eexists. split; reflexivity.
  - cbn [bind]. eexists. split; reflexivity.
Qed.

(** C2, at the request [{ mass: 2, material: "rock" }]: the gravity vector
    is (0, -0.5 g), built on the 0.5 kg of the catalog's rock, and not
    (0, -2 g) as the mass passed in would give. *)
Theorem calculateForces_gravity_uses_material_mass :
  exists forces,
    calculateForces rock_of_two_kilograms = Ok forces
    /\ Force.vector (Forces.gravity forces) = Vector.mk (Fin 0) (Fin (- (0.5 * 9.81)))
    /\ Force.vector (Forces.gravity forces) <> Vector.mk (Fin 0) (Fin (- (2 * 9.81))).
Proof.
  destruct (calculateForces_gravity rock_of_two_kilograms) as (forces & Hf & Hg).
  exists forces. split; [exact Hf |].
  rewrite Hg. cbn. unfold GRAVITY. split; [do 2 f_equal; lra |].
  intros [= E]. lra.
Qed.

(** ** calculateImpact *)

Lemma contactTime_nonzero (name : string) :
  contactTime (lookupMaterial name) <> Fin 0.
Proof.
  unfold contactTime.
  destruct (lookupMaterial_cases name) as [(m & -> & _ & Hb) | ->];
    cbn [prop nmul lift2]; [| discriminate].
  intros [= E]. lra.
Qed.

Lemma calculateImpact_Ok (finalVelocity : Velocity.t)
  (material impactSurface : option string) :
  exists r, calculateImpact finalVelocity material impactSurface = Ok r.
Proof.
  unfold calculateImpact.
  set (obj := lookupMaterial _).
  destruct (ndiv_Ok (nmul (prop Material.mass obj)
                          (Math_sqrt
                             (nadd (nmul (Velocity.vx finalVelocity)
                                         (Velocity.vx finalVelocity))
                                   (nmul (Velocity.vy finalVelocity)
                                         (Velocity.vy finalVelocity)))))
                    (contactTime obj)) as [force ->];
    [apply contactTime_nonzero |].
  cbn [bind].
  destruct (ndiv_Ok (nmul (Math_atan2 (Math_abs (Velocity.vy finalVelocity))
                                      (Math_abs (Velocity.vx finalVelocity)))
                          (Fin 180)) Math_PI) as [angle ->].
  { unfold Math_PI. intros [= E]. now apply PI_neq0. }
  cbn [bind]. now eexists.
Qed.

(** ** calculateTrajectory *)

Section IntegratorFacts.
Variable obj : jsobject.
Variables airDensity gravity windX windY : num.
Hypothesis mass_nonzero : prop Material.mass obj <> Fin 0.

Lemma drag_Ok (dragMagnitude vRel vRelAxis : num) :
  exists d, drag obj dragMagnitude vRel vRelAxis = Ok d.
Proof.
  unfold drag.
  destruct (ngtb vRel (Fin 0)) eqn:Hrel; [| now eexists].
  destruct (ndiv_Ok vRelAxis vRel) as [q ->]; [now apply ngtb_zero_nonzero |].
  cbn [bind]. now apply ndiv_Ok.
Qed.

Lemma step_Ok (s : State.t) :
  exists s' sample,
    step obj airDensity gravity windX windY s = Ok (s', sample)
    /\ State.t_ s' = nadd (State.t_ s) (Fin dt)
    /\ Sample.time sample = parseFloat_toFixed 3 (State.t_ s).
Proof.
  unfold step.
  set (vRelX := nsub (State.vx s) windX).
  set (vRelY := nsub (State.vy s) windY).
  set (vRel := Math_sqrt _).
  set (dm := nmul (nmul _ vRel) vRel).
  destruct (drag_Ok dm vRel vRelX) as [dragX ->].
  destruct (drag_Ok dm vRel vRelY) as [dragY ->].
  cbn [bind]. do 2 eexists. split; [reflexivity |]. split; reflexivity.
Qed.

(** The loop with the clock at [clock] and [n] turns' worth of fuel, when
    [n] more turns take the clock beyond 300 s: it returns, having pushed
    at most [n] samples, each timed within the cutoff, and at least one
    when entered with [y >= 0]. *)
Lemma while_loop_returns (fuel : nat) :
  forall (n : nat) (s : State.t) (trajectory : list Sample.t) (clock : R),
    (n <= fuel)%nat ->
    State.t_ s = Fin clock ->
    clock <= 300 ->
    300 < clock + INR n * dt ->
    exists pushed,
      while_loop obj airDensity gravity windX windY fuel s trajectory
      = Ok (trajectory ++ pushed)%list
      /\ (length pushed <= n)%nat
      /\ Forall time_within_cutoff pushed
      /\ (ngeb (State.y s) (Fin 0) = true -> pushed <> []).
Proof.
  induction fuel as [| fuel IH]; intros n s trajectory clock Hn Ht Hclock Hend.
  - assert (n = 0%nat) by lia. subst n. simpl in Hend. lra.
  - cbn [while_loop].
    destruct (ngeb (State.y s) (Fin 0)) eqn:Hy.
    2:{ exists []. rewrite app_nil_r.
        repeat split; [cbn; lia | constructor | discriminate]. }
    destruct (step_Ok s) as (s' & sample & -> & Ht' & Htime).
    cbn [bind fst snd].
    assert (Hsample : time_within_cutoff sample).
    { exists (toFixed 3 clock). rewrite Htime, Ht. cbn [parseFloat_toFixed lift1].
      split; [reflexivity | now apply toFixed3_le_300]. }
    rewrite Ht in Ht'. cbn [nadd lift2] in Ht'.
    destruct n as [| n]; [simpl in Hend; lra |].
    rewrite S_INR in Hend.
    rewrite Ht'. cbn [ngtb].
    destruct (Rlt_dec 300 (clock + dt)) as [Hover | Hunder].
    + exists [sample]. repeat split; [cbn; lia | now constructor | discriminate].
    + destruct (IH n s' (trajectory ++ [sample])%list (clock + dt))
        as (pushed & Hrun & Hlen & Hall & _); [lia | exact Ht' | lra | lra |].
      exists (sample :: pushed). rewrite Hrun, <- app_assoc.
      repeat split; [cbn; lia | now constructor | discriminate].
Qed.
End IntegratorFacts.

Lemma setup_Ok (params : TrajectoryParams.t) :
  exists e,
    setup params = Ok e
    /\ Setup.obj e
       = lookupMaterial (default "basketball"%string
                                 (TrajectoryParams.material params))
    /\ State.t_ (Setup.start e) = Fin 0
    /\ State.y (Setup.start e)
       = Fin (default 0 (TrajectoryParams.initialHeight params)).
Proof.
  unfold setup. cbn [Math_PI nmul lift2].
  rewrite !ndiv_Fin by lra. cbn [bind].
  eexists. split; [reflexivity |]. repeat split.
Qed.

Lemma MAX_SAMPLES_beyond_cutoff : 300 < 0 + INR MAX_SAMPLES * dt.
Proof.
  unfold MAX_SAMPLES, dt. rewrite INR_IZR_INZ, Z2Nat.id by lia. lra.
Qed.

(** With fuel for [MAX_SAMPLES] turns the integrator returns a trajectory
    of at most that many samples, each timed within the cutoff, and not
    empty when the initial height is not negative. *)
Lemma calculateTrajectory_returns (fuel : nat) (params : TrajectoryParams.t) :
  (MAX_SAMPLES <= fuel)%nat ->
  exists trajectory,
    calculateTrajectory fuel params = Ok trajectory
    /\ (length trajectory <= MAX_SAMPLES)%nat
    /\ Forall time_within_cutoff trajectory
    /\ (0 <= default 0 (TrajectoryParams.initialHeight params) ->
        trajectory <> []).
Proof.
  intros Hfuel. unfold calculateTrajectory.
  destruct (setup_Ok params) as (e & -> & Hobj & Ht & Hy). cbn [bind].
  destruct (while_loop_returns (Setup.obj e) (Setup.airDensity e)
              (Setup.gravity e) (Setup.windX e) (Setup.windY e)
              (ltac:(rewrite Hobj; apply lookupMaterial_mass_nonzero))
              fuel MAX_SAMPLES (Setup.start e) [] 0 Hfuel Ht (ltac:(lra))
              MAX_SAMPLES_beyond_cutoff)
    as (pushed & Hrun & Hlen & Hall & Hne).
  exists pushed. cbn [app] in Hrun. repeat split; try assumption.
  intros Hh. apply Hne. rewrite Hy. cbn [ngeb].
  destruct (Rle_dec 0 (default 0 (TrajectoryParams.initialHeight params)));
    [reflexivity | contradiction].
Qed.

(** ** The loop body on finite numbers *)

Lemma product_square_nonneg (a b : R) : 0 <= a * a + b * b.
Proof. nra. Qed.

Lemma step_finite (m : Material.t) (rho g wx wy x y vx vy t : R) :
  Material.mass m <> 0 ->
  step (MaterialObj m) (Fin rho) (Fin g) (Fin wx) (Fin wy)
       (State.mk (Fin x) (Fin y) (Fin vx) (Fin vy) (Fin t))
  = Ok (next_state m rho g wx wy x y vx vy t,
        next_sample m rho g wx wy x y vx vy t).
Proof.
  intros Hm. unfold step, drag.
  cbn [State.x State.y State.vx State.vy State.t_ prop nsub nadd nmul nneg
       lift1 lift2 Math_PI].
  rewrite Math_sqrt_Fin by apply product_square_nonneg.
  fold (relative_speed wx wy vx vy).
  cbn [nmul lift2 ngtb].
  unfold next_state, next_sample, next_x, next_y, next_vx, next_vy,
    drag_component, drag_magnitude.
  destruct (Rlt_dec 0 (relative_speed wx wy vx vy)) as [Hr | Hr].
  - rewrite !ndiv_Fin by lra. cbn [bind nneg nmul lift1 lift2].
    rewrite !ndiv_Fin by assumption. cbn [bind nneg nmul nadd lift1 lift2].
    rewrite Math_sqrt_Fin by apply product_square_nonneg.
    reflexivity.
  - cbn [bind nneg nmul nadd lift1 lift2].
    rewrite Math_sqrt_Fin by apply product_square_nonneg.
    reflexivity.
Qed.

Lemma setup_value (params : TrajectoryParams.t) :
  setup params
  = Ok (Setup.mk
          (lookupMaterial (default "basketball"%string
                                   (TrajectoryParams.material params)))
          (Fin (default AIR_DENSITY (TrajectoryParams.airDensity params)))
          (Fin (default GRAVITY (TrajectoryParams.gravity params)))
          (Fin (default 0 (TrajectoryParams.windSpeed params)
                * cos (default 0 (TrajectoryParams.windDirection params) * PI / 180)))
          (Fin (default 0 (TrajectoryParams.windSpeed params)
                * sin (default 0 (TrajectoryParams.windDirection params) * PI / 180)))
          (State.mk (Fin 0)
             (Fin (default 0 (TrajectoryParams.initialHeight params)))
             (Fin (default 10 (TrajectoryParams.initialVelocity params)
                   * cos (default 45 (TrajectoryParams.launchAngle params) * PI / 180)))
             (Fin (default 10 (TrajectoryParams.initialVelocity params)
                   * sin (default 45 (TrajectoryParams.launchAngle params) * PI / 180)))
             (Fin 0))).
Proof.
  unfold setup. cbn [Math_PI nmul lift2].
  rewrite !ndiv_Fin by lra. reflexivity.
Qed.

(** *** The long fall *)

Lemma speed_bound (vx vy b : R) :
  0 <= b -> vx * vx + vy * vy <= b * b ->
  0 <= relative_speed 0 0 vx vy <= b.
Proof.
  intros Hb Hq. unfold relative_speed. split; [apply sqrt_pos |].
  rewrite <- (sqrt_square b Hb). apply sqrt_le_1_alt.
  replace ((vx - 0) * (vx - 0) + (vy - 0) * (vy - 0)) with (vx * vx + vy * vy)
    by ring.
  exact Hq.
Qed.

(** In still air the drag shrinks each velocity component by the factor
    [1 - s], with [s] proportional to the speed. *)
Lemma still_air_drag (m : Material.t) (rho vx vy axis : R) :
  Material.mass m <> 0 ->
  drag_component m rho 0 0 vx vy (axis - 0) * dt
  = - (0.5 * Material.dragCoeff m * rho
       * (Material.radius m * Material.radius m) / Material.mass m
       * PI * relative_speed 0 0 vx vy * dt) * axis.
Proof.
  intros Hm. unfold drag_component, drag_magnitude.
  destruct (Rlt_dec 0 (relative_speed 0 0 vx vy)) as [Hr | Hr].
  - field. split; [assumption | lra].
  - assert (E : relative_speed 0 0 vx vy = 0).
    { pose proof (sqrt_pos ((vx - 0) * (vx - 0) + (vy - 0) * (vy - 0))).
      unfold relative_speed in *. lra. }
    rewrite E. ring.
Qed.

Lemma falling_step (k : R) (x y vx vy : R) :
  0 <= k <= 30000 ->
  - 10 <= vx <= 10 ->
  - (10 + 9.81 * (k * dt)) <= vy <= 10 + 9.81 * (k * dt) ->
  1000000 - 30 * k <= y ->
  falling (k + 1)
    (next_state basketball AIR_DENSITY GRAVITY 0 0 x y vx vy (k * dt)).
Proof.
  intros Hk Hvx Hvy Hy. unfold dt in *.
  set (b := 20 + 9.81 * (k * 0.01)).
  assert (Hb : 0 <= b <= 2963) by (unfold b; lra).
  destruct (speed_bound vx vy b) as [Hr0 Hr1]; [lra | unfold b; nra |].
  set (r := relative_speed 0 0 vx vy) in *.
  set (s := 0.5 * 0.47 * 1.225 * (0.1194 * 0.1194) / 0.624 * PI * r * 0.01).
  assert (Hs : 0 <= s <= 1).
  { pose proof PI_RGT_0. pose proof PI_4.
    assert (0 <= PI * r <= 4 * 2963) by nra.
    unfold s. lra. }
  assert (Evx : next_vx basketball AIR_DENSITY 0 0 vx vy = vx - s * vx).
  { unfold next_vx. rewrite still_air_drag by (cbn; lra).
    unfold s, r, dt, basketball, AIR_DENSITY. cbn. ring. }
  assert (Evy : next_vy basketball AIR_DENSITY GRAVITY 0 0 vx vy
                = vy - s * vy - 9.81 * 0.01).
  { unfold next_vy. rewrite Rmult_plus_distr_r.
    rewrite still_air_drag by (cbn; lra).
    unfold s, r, dt, basketball, AIR_DENSITY, GRAVITY. cbn. ring. }
  unfold falling, next_state, next_x, next_y.
  do 4 eexists. split.
  { f_equal. f_equal. unfold dt. ring. }
  rewrite Evx, Evy. unfold dt. repeat split; nra.
Qed.

Lemma falling_loop (fuel : nat) :
  forall (n : nat) (k : R) (s : State.t) (trajectory : list Sample.t),
    (n <= fuel)%nat -> (1 <= n)%nat ->
    0 <= k -> k + INR n = 30001 ->
    falling k s ->
    exists pushed,
      while_loop (MaterialObj basketball) (Fin AIR_DENSITY) (Fin GRAVITY)
                 (Fin 0) (Fin 0) fuel s trajectory
      = Ok (trajectory ++ pushed)%list
      /\ length pushed = n.
Proof.
  induction fuel as [| fuel IH]; intros n k s trajectory Hfuel Hn Hk Hsum Hfall;
    [lia |].
  destruct n as [| n]; [lia |]. rewrite S_INR in Hsum.
  pose proof (pos_INR n) as Hpos.
  destruct Hfall as (x & y & vx & vy & -> & Hvx & Hvy & Hy).
  cbn [while_loop State.y ngeb].
  destruct (Rle_dec 0 y) as [_ | Hneg]; [| lra].
  rewrite step_finite by (cbn; lra). cbn [bind fst snd].
  assert (Hnext : falling (k + 1)
            (next_state basketball AIR_DENSITY GRAVITY 0 0 x y vx vy (k * dt)))
    by (apply falling_step; assumption || lra).
  unfold next_state at 1. cbn [State.t_ ngtb].
  destruct n as [| n].
  - simpl in Hsum.
    destruct (Rlt_dec 300 (k * dt + dt)) as [_ | Hunder]; [| unfold dt in *; lra].
    eexists. split; reflexivity.
  - rewrite S_INR in Hsum. pose proof (pos_INR n).
    destruct (Rlt_dec 300 (k * dt + dt)) as [Hover | _]; [unfold dt in *; lra |].
    destruct (IH (S n) (k + 1)
                (next_state basketball AIR_DENSITY GRAVITY 0 0 x y vx vy (k * dt))
                (trajectory ++ [next_sample basketball AIR_DENSITY
                                  GRAVITY 0 0 x y vx vy (k * dt)])%list)
      as (pushed & Hrun & Hlen);
      [lia | lia | lra | rewrite S_INR; lra | exact Hnext |].
    eexists. rewrite Hrun, <- app_assoc. split; [reflexivity |].
    cbn [app length]. now rewrite Hlen.
Qed.

Lemma long_fall_setup :
  exists vx vy,
    setup long_fall
    = Ok (Setup.mk (MaterialObj basketball) (Fin AIR_DENSITY) (Fin GRAVITY)
                   (Fin 0) (Fin 0)
                   (State.mk (Fin 0) (Fin 1000000) (Fin vx) (Fin vy) (Fin 0)))
    /\ - 10 <= vx <= 10 /\ - 10 <= vy <= 10.
Proof.
  exists (10 * cos (45 * PI / 180)), (10 * sin (45 * PI / 180)).
  split.
  - rewrite setup_value. cbn [long_fall default TrajectoryParams.material
      TrajectoryParams.airDensity TrajectoryParams.gravity
      TrajectoryParams.windSpeed TrajectoryParams.windDirection
      TrajectoryParams.initialHeight TrajectoryParams.initialVelocity
      TrajectoryParams.launchAngle].
    rewrite !Rmult_0_l. reflexivity.
  - pose proof (COS_bound (45 * PI / 180)). pose proof (SIN_bound (45 * PI / 180)).
    lra.
Qed.

Lemma long_fall_length (fuel : nat) :
  (MAX_SAMPLES <= fuel)%nat ->
  exists trajectory,
    calculateTrajectory fuel long_fall = Ok trajectory
    /\ length trajectory = MAX_SAMPLES.
Proof.
  intros Hfuel. unfold calculateTrajectory.
  destruct long_fall_setup as (vx & vy & -> & Hvx & Hvy).
  cbn [bind Setup.obj Setup.airDensity Setup.gravity Setup.windX Setup.windY
       Setup.start].
  destruct (falling_loop fuel MAX_SAMPLES 0
              (State.mk (Fin 0) (Fin 1000000) (Fin vx) (Fin vy) (Fin 0)) [])
    as (pushed & Hrun & Hlen).
  - exact Hfuel.
  - unfold MAX_SAMPLES. lia.
  - lra.
  - unfold MAX_SAMPLES. rewrite INR_IZR_INZ, Z2Nat.id by lia. lra.
  - exists 0, 1000000, vx, vy. unfold dt.
    repeat split; try lra. do 2 f_equal. ring.
  - exists pushed. split; assumption.
Qed.

(** ** Termination, budget and totality *)

(** More fuel does not change what the loop returns. *)
Lemma while_loop_more_fuel obj airDensity gravity windX windY (fuel : nat) :
  forall (s : State.t) (trajectory result : list Sample.t),
    while_loop obj airDensity gravity windX windY fuel s trajectory = Ok result ->
    forall fuel', (fuel <= fuel')%nat ->
    while_loop obj airDensity gravity windX windY fuel' s trajectory = Ok result.
Proof.
  induction fuel as [| fuel IH]; intros s trajectory result Hrun fuel' Hle.
  - destruct fuel'; cbn [while_loop] in *;
      destruct (ngeb (State.y s) (Fin 0)); (discriminate || assumption).
  - destruct fuel' as [| fuel']; [lia |]. cbn [while_loop] in *.
    destruct (ngeb (State.y s) (Fin 0)); [| assumption].
    destruct (step obj airDensity gravity windX windY s) as [[s' sample] | |];
      cbn [bind fst snd] in *; try discriminate.
    destruct (ngtb (State.t_ s') (Fin 300)); [assumption |].
    apply IH; [assumption | lia].
Qed.

Lemma calculateTrajectory_more_fuel (fuel fuel' : nat)
  (params : TrajectoryParams.t) (trajectory : list Sample.t) :
  calculateTrajectory fuel params = Ok trajectory ->
  (fuel <= fuel')%nat ->
  calculateTrajectory fuel' params = Ok trajectory.
Proof.
  unfold calculateTrajectory.
  destruct (setup params) as [e | |]; cbn [bind]; try discriminate.
  intros Hrun Hle. now apply while_loop_more_fuel with (fuel := fuel).
Qed.

Lemma finalPoint_In (trajectory : list Sample.t) (p : Sample.t) :
  finalPoint trajectory = Some p -> In p trajectory.
Proof.
  unfold finalPoint.
  induction trajectory as [| a [| b rest] IH]; cbn; [discriminate | |].
  - intros [= ->]. now left.
  - intros H. right. apply IH. exact H.
Qed.

(** C1, as stated, fails on the long fall: the integrator returns 30,001
    samples, one more than the bound claimed. *)
Lemma long_fall_exceeds_step_bound :
  exists trajectory,
    calculateTrajectory MAX_SAMPLES long_fall = Ok trajectory
    /\ ~ (Z.of_nat (length trajectory) <= 30000)%Z.
Proof.
  destruct (long_fall_length MAX_SAMPLES (le_n _)) as (trajectory & Hrun & Hlen).
  exists trajectory. split; [exact Hrun |].
  rewrite Hlen. unfold MAX_SAMPLES. rewrite Z2Nat.id; lia.
Qed.

(** C1, amended: for every parameter set the integrator returns (with fuel
    for 30,001 turns or more, and the same trajectory whatever the surplus),
    the trajectory has at most 30,001 samples, and the time of its final
    sample does not exceed 300 s. *)
Theorem calculateTrajectory_terminates (fuel : nat) (params : TrajectoryParams.t) :
  (MAX_SAMPLES <= fuel)%nat ->
  exists trajectory,
    calculateTrajectory fuel params = Ok trajectory
    /\ calculateTrajectory MAX_SAMPLES params = Ok trajectory
    /\ (Z.of_nat (length trajectory) <= 30001)%Z
    /\ (forall p, finalPoint trajectory = Some p -> time_within_cutoff p).
Proof.
  intros Hfuel.
  destruct (calculateTrajectory_returns MAX_SAMPLES params (le_n _))
    as (trajectory & Hrun & Hlen & Hall & _).
  exists trajectory.
  split; [now apply calculateTrajectory_more_fuel with (fuel := MAX_SAMPLES) |].
  split; [exact Hrun |].
  split.
  - unfold MAX_SAMPLES in Hlen. lia.
  - intros p Hp. rewrite Forall_forall in Hall. now apply Hall, finalPoint_In.
Qed.

Lemma calculateTrajectory_terminates_witness :
  exists trajectory,
    calculateTrajectory (S MAX_SAMPLES) long_fall = Ok trajectory
    /\ calculateTrajectory MAX_SAMPLES long_fall = Ok trajectory
    /\ (Z.of_nat (length trajectory) <= 30001)%Z
    /\ (forall p, finalPoint trajectory = Some p -> time_within_cutoff p).
Proof.
  apply (calculateTrajectory_terminates (S MAX_SAMPLES) long_fall).
  apply le_S, le_n.
Defined.

(** C8: with an initial height that is not negative (or left to its
    default) the trajectory returned is not empty. *)
Theorem calculateTrajectory_nonempty (fuel : nat) (params : TrajectoryParams.t) :
  (MAX_SAMPLES <= fuel)%nat ->
  0 <= default 0 (TrajectoryParams.initialHeight params) ->
  exists trajectory,
    calculateTrajectory fuel params = Ok trajectory /\ trajectory <> [].
Proof.
  intros Hfuel Hheight.
  destruct (calculateTrajectory_returns fuel params Hfuel)
    as (trajectory & Hrun & _ & _ & Hne).
  exists trajectory. split; [exact Hrun | now apply Hne].
Qed.

Lemma calculateTrajectory_nonempty_witness :
  exists trajectory,
    calculateTrajectory MAX_SAMPLES long_fall = Ok trajectory /\ trajectory <> [].
Proof.
  apply (calculateTrajectory_nonempty MAX_SAMPLES long_fall).
  - apply le_n.
  - cbn [long_fall TrajectoryParams.initialHeight default]. lra.
Defined.

Lemma while_loop_no_division obj airDensity gravity windX windY (fuel : nat) :
  prop Material.mass obj <> Fin 0 ->
  forall (s : State.t) (trajectory : list Sample.t),
    while_loop obj airDensity gravity windX windY fuel s trajectory
    <> DivisionByZero.
Proof.
  intros Hmass.
  induction fuel as [| fuel IH]; intros s trajectory; cbn [while_loop];
    destruct (ngeb (State.y s) (Fin 0)); try discriminate.
  destruct (step_Ok obj airDensity gravity windX windY Hmass s)
    as (s' & sample & -> & _ & _).
  cbn [bind fst snd].
  destruct (ngtb (State.t_ s') (Fin 300)); [discriminate | apply IH].
Qed.

(** C6: no division of the engine meets a zero divisor.  The trajectory,
    the forces and the impact are computed without one whatever the
    arguments, and the collision whenever the two masses are positive; the
    drag components are zero when the (relative) speed is zero; and the
    contact time is not zero whatever the material name. *)
Theorem no_division_by_zero :
  (forall fuel params, calculateTrajectory fuel params <> DivisionByZero)
  /\ (forall params, calculateForces params <> DivisionByZero)
  /\ (forall finalVelocity material impactSurface,
         calculateImpact finalVelocity material impactSurface <> DivisionByZero)
  /\ (forall obj1 obj2 m1 v1x v1y m2 v2x v2y e,
         positive_masses m1 m2 ->
         collision_input obj1 obj2 m1 v1x v1y m2 v2x v2y e ->
         calculateCollision obj1 obj2 <> DivisionByZero)
  /\ (forall obj dragMagnitude vRelAxis,
         drag obj dragMagnitude (Fin 0) vRelAxis = Ok (Fin 0))
  /\ (forall dragMagnitude velocityAxis,
         airResistanceComponent dragMagnitude (Fin 0) velocityAxis = Ok (Fin 0))
  /\ (forall material, contactTime (lookupMaterial material) <> Fin 0).
Proof.
  repeat split.
  - intros fuel params. unfold calculateTrajectory.
    destruct (setup_Ok params) as (e & -> & Hobj & _). cbn [bind].
    apply while_loop_no_division. rewrite Hobj.
    apply lookupMaterial_mass_nonzero.
  - intros params. destruct (calculateForces_gravity params) as (f & -> & _).
    discriminate.
  - intros fv material surface.
    destruct (calculateImpact_Ok fv material surface) as [r ->]. discriminate.
  - intros obj1 obj2 m1 v1x v1y m2 v2x v2y e [Hm1 Hm2] Hin.
    rewrite (calculateCollision_input _ _ _ _ _ _ _ _ _ Hin).
    rewrite collide_value by lra. discriminate.
  - intros obj dm axis. unfold drag. cbn [ngtb].
    destruct (Rlt_dec 0 0) as [H | _]; [lra | reflexivity].
  - intros dm axis. unfold airResistanceComponent. cbn [ngtb].
    destruct (Rlt_dec 0 0) as [H | _]; [lra | reflexivity].
  - apply contactTime_nonzero.
Qed.

Lemma no_division_by_zero_witness :
  calculateCollision example_obj1 example_obj2 <> DivisionByZero.
Proof.
  apply (proj1 (proj2 (proj2 (proj2 no_division_by_zero)))
           example_obj1 example_obj2 2 10 0 1 0 0 1).
  - unfold positive_masses. lra.
  - reflexivity.
Defined.

(** ** Headwind *)











(** *** A level throw against the wind *)






(** ** A material name inherited from [Object.prototype] *)


(** * Further properties *)

(** ** Runs of the integrator *)

Lemma while_loop_run obj airDensity gravity windX windY (fuel : nat) :
  forall (s : State.t) (trajectory result : list Sample.t),
    while_loop obj airDensity gravity windX windY fuel s trajectory = Ok result ->
    exists pushed,
      result = (trajectory ++ pushed)%list
      /\ run obj airDensity gravity windX windY s pushed.
Proof.
  induction fuel as [| fuel IH]; intros s trajectory result; cbn [while_loop];
    destruct (ngeb (State.y s) (Fin 0)) eqn:Hy; try discriminate;
    try (intros [= <-]; exists []; rewrite app_nil_r; split;
         [reflexivity | now constructor]).
  destruct (step obj airDensity gravity windX windY s) as [[s' p] | |] eqn:Hstep;
    cbn [bind fst snd]; try discriminate.
  destruct (ngtb (State.t_ s') (Fin 300)) eqn:Ht.
  - intros [= <-]. exists [p]. split; [reflexivity |].
    now apply run_cutoff with (s' := s').
  - intros Hrun. destruct (IH _ _ _ Hrun) as (pushed & -> & Hpushed).
    exists (p :: pushed). rewrite <- app_assoc. split; [reflexivity |].
    now apply run_turn with (s' := s').
Qed.

Lemma calculateTrajectory_run (fuel : nat) (params : TrajectoryParams.t)
  (trajectory : list Sample.t) :
  calculateTrajectory fuel params = Ok trajectory ->
  exists e,
    setup params = Ok e
    /\ run (Setup.obj e) (Setup.airDensity e) (Setup.gravity e)
           (Setup.windX e) (Setup.windY e) (Setup.start e) trajectory.
Proof.
  unfold calculateTrajectory.
  destruct (setup params) as [e | |]; cbn [bind]; try discriminate.
  intros Hrun. apply while_loop_run in Hrun as (pushed & -> & Hpushed).
  exists e. split; [reflexivity | exact Hpushed].
Qed.

(** What a turn pushes is the rounding of the state it leaves. *)
Lemma step_sample obj airDensity gravity windX windY (s s' : State.t)
  (p : Sample.t) :
  step obj airDensity gravity windX windY s = Ok (s', p) ->
  State.t_ s' = nadd (State.t_ s) (Fin dt)
  /\ Sample.time p = parseFloat_toFixed 3 (State.t_ s)
  /\ Sample.x p = parseFloat_toFixed 3 (State.x s')
  /\ Sample.y p = parseFloat_toFixed 3 (State.y s')
  /\ Sample.vx p = parseFloat_toFixed 3 (State.vx s')
  /\ Sample.vy p = parseFloat_toFixed 3 (State.vy s')
  /\ Sample.speed p
     = parseFloat_toFixed 3
         (Math_sqrt (nadd (nmul (State.vx s') (State.vx s'))
                          (nmul (State.vy s') (State.vy s')))).
Proof.
  unfold step.
  destruct (drag obj _ _ _) as [dragX | |]; cbn [bind]; try discriminate.
  destruct (drag obj _ _ _) as [dragY | |]; cbn [bind]; try discriminate.
  intros [= <- <-]. cbn. repeat split.
Qed.


Section RunFacts.
Variable obj : jsobject.
Variables airDensity gravity windX windY : num.







End RunFacts.

(** ** The samples of a trajectory *)






(** ** A flight without air *)






(** ** Finite samples *)




(** ** More on collisions *)











(** X10: the collision divides by zero exactly when the two masses sum to
    zero. *)
Theorem collision_division_by_zero obj1 obj2 m1 v1x v1y m2 v2x v2y e :
  collision_input obj1 obj2 m1 v1x v1y m2 v2x v2y e ->
  calculateCollision obj1 obj2 = DivisionByZero <-> m1 + m2 = 0.
Proof.
  intros Hin. rewrite (calculateCollision_input _ _ _ _ _ _ _ _ _ Hin).
  destruct (Req_dec_T (m1 + m2) 0) as [Hz | Hnz].
  - split; [trivial |]. intros _.
    unfold collide, v1Final, totalMass, ndiv. cbn [nadd nmul lift2].
    destruct (Req_dec_T (m1 + m2) 0) as [_ | Hn]; [reflexivity | contradiction].
  - rewrite collide_value by assumption. split; [discriminate | contradiction].
Qed.

Lemma collision_division_by_zero_witness :
  calculateCollision
    (CollisionObject.mk (Some 1) (Some (Vector.mk 10 0)) None None None)
    (CollisionObject.mk None None (Some (-1)) (Some (Vector.mk 0 0)) (Some 1))
  = DivisionByZero <-> 1 + -1 = 0.
Proof.
  apply (collision_division_by_zero _ _ 1 10 0 (-1) 0 0 1). reflexivity.
Defined.

(** X11: the collision route refuses a request that lacks one of the two
    objects, and accepts two empty objects, for which every parameter takes
    its default: 1 kg at (10, 0) against 1 kg at (-5, 0) with restitution
    0.8 end at (-2, 0) and (7, 0), with 36 J lost and an impact force of
    1500 N. *)
Theorem post_api_collision_operands :
  (forall body,
      CollisionRequest.object1 body = None \/ CollisionRequest.object2 body = None ->
      post_api_collision body
      = Ok (BadRequest "Both object1 and object2 parameters are required"))
  /\ post_api_collision
       (CollisionRequest.mk (Some CollisionObject.empty) (Some CollisionObject.empty))
     = Ok (Json (CollisionResult.mk (Vector.mk (Fin (-2)) (Fin 0))
                                    (Vector.mk (Fin 7) (Fin 0))
                                    (Fin 36) (Fin 1500))).
Proof.
  split.
  - intros [o1 o2] [H | H]; cbn in H; subst; unfold post_api_collision; cbn;
      [reflexivity | destruct o1; reflexivity].
  - unfold post_api_collision.
    cbn [CollisionRequest.object1 CollisionRequest.object2].
    change (calculateCollision CollisionObject.empty CollisionObject.empty)
      with (collide (Fin 1) (Fin 1) (Fin 0.8)
                    (Vector.mk (Fin 10) (Fin 0)) (Vector.mk (Fin (-5)) (Fin 0))).
    rewrite collide_value by lra. rewrite energy_balance by lra.
    cbn [bind].
    replace ((10 - -5) ^ 2 + (0 - 0) ^ 2) with (15 * 15) by ring.
    rewrite sqrt_square by lra.
    replace (10 - 2 * 1 / (1 + 1) * (10 - -5) * 0.8) with (- (2)) by lra.
    replace (0 - 2 * 1 / (1 + 1) * (0 - 0) * 0.8) with 0 by lra.
    replace (-5 + 2 * 1 / (1 + 1) * (10 - -5) * 0.8) with 7 by lra.
    replace (0 + 2 * 1 / (1 + 1) * (0 - 0) * 0.8) with 0 by lra.
    replace (2 * 1 * 1 / (1 + 1) * (0.8 * (1 - 0.8)) * (15 * 15)) with 36
      by lra.
    replace (1 * 15 / 0.01) with 1500 by lra.
    assert (E0 : toFixed 3 0 = 0) by rounds_to 0%Z.
    assert (E2 : toFixed 3 (- (2)) = -2).
    { rewrite (toFixed_neg 3 _ 2000); simpl; lra. }
    assert (E7 : toFixed 3 7 = 7) by rounds_to 7000%Z.
    assert (E36 : toFixed 3 36 = 36) by rounds_to 36000%Z.
    assert (E1500 : toFixed 3 1500 = 1500) by rounds_to 1500000%Z.
    now rewrite E0, E2, E7, E36, E1500.
Qed.

Lemma post_api_collision_operands_witness :
  post_api_collision (CollisionRequest.mk None (Some CollisionObject.empty))
  = Ok (BadRequest "Both object1 and object2 parameters are required").
Proof.
  apply (proj1 post_api_collision_operands). left. reflexivity.
Defined.

(** ** More on impacts *)

Lemma surfaceFactors_positive :
  Forall (fun entry => 0 < snd entry) surfaceFactors.
Proof. unfold surfaceFactors. repeat constructor; cbn [snd]; lra. Qed.

Lemma surfaceFactor_own (surface : string) (f : R) :
  own_property surface surfaceFactors = Some f ->
  surfaceFactor surface = Fin f /\ 0 < f.
Proof.
  intros H. pose proof H as Hin. apply own_property_In in Hin.
  pose proof surfaceFactors_positive as W. rewrite Forall_forall in W.
  specialize (W _ Hin). cbn [snd] in W.
  unfold surfaceFactor. rewrite H.
  destruct (Req_dec_T f 0) as [Hz | _]; [lra | now split].
Qed.

(** What the impact of a finite velocity is for a material of the
    catalog. *)
Lemma calculateImpact_value (m : Material.t) (vx vy : R)
  (material impactSurface : option string) :
  lookupMaterial (default "basketball"%string material) = MaterialObj m ->
  0 < Material.bounciness m ->
  calculateImpact (Velocity.mk (Fin vx) (Fin vy)) material impactSurface
  = Ok (ImpactResult.mk
          (Fin (toFixed 3 (sqrt (vx * vx + vy * vy))))
          (Fin (toFixed 3 (0.5 * Material.mass m * sqrt (vx * vx + vy * vy)
                           * sqrt (vx * vx + vy * vy))))
          (parseFloat_toFixed 3
             (nmul (Fin (Material.mass m * sqrt (vx * vx + vy * vy)
                         / (Material.bounciness m * 0.01)))
                   (surfaceFactor (default "concrete"%string impactSurface))))
          (Fin (toFixed 2 (atan2 (Rabs vy) (Rabs vx) * 180 / PI)))
          (Fin (toFixed 2 (Material.bounciness m * 0.01 * 1000)))).
Proof.
  intros Hobj Hb. unfold calculateImpact, contactTime. rewrite Hobj.
  cbn [Velocity.vx Velocity.vy prop nmul nadd lift2 Math_abs Math_atan2 lift1
       Math_PI].
  rewrite Math_sqrt_Fin by apply product_square_nonneg.
  cbn [nmul lift2]. unfold Math_PI.
  rewrite ndiv_Fin by lra. cbn [bind].
  rewrite ndiv_Fin by apply PI_neq0. reflexivity.
Qed.

Lemma atan2_quadrant (y x : R) :
  0 <= y -> 0 <= x -> 0 <= atan2 y x <= PI / 2.
Proof.
  intros Hy Hx. pose proof PI_RGT_0 as Hpi. unfold atan2.
  destruct (Rlt_dec 0 x) as [Hpos | Hnpos].
  - assert (Hq : 0 <= y / x).
    { unfold Rdiv. apply Rmult_le_pos; [lra |].
      left. now apply Rinv_0_lt_compat. }
    pose proof (atan_bound (y / x)) as [_ Hup].
    split; [| lra].
    destruct Hq as [Hq | <-]; [| rewrite atan_0; lra].
    pose proof (atan_increasing 0 (y / x) Hq) as Hinc.
    rewrite atan_0 in Hinc. lra.
  - destruct (Rlt_dec x 0) as [Hneg | _]; [lra |].
    destruct (Rlt_dec 0 y) as [_ | _]; [lra |].
    destruct (Rlt_dec y 0) as [Hny | _]; lra.
Qed.

(** X12: the impact angle reported for a finite velocity lies between 0
    and 90 degrees. *)
Theorem impactAngle_range (m : Material.t) (vx vy : R)
  (material impactSurface : option string) :
  own_property (default "basketball"%string material) MATERIALS = Some m ->
  exists r angle,
    calculateImpact (Velocity.mk (Fin vx) (Fin vy)) material impactSurface = Ok r
    /\ ImpactResult.impactAngle r = Fin angle
    /\ 0 <= angle <= 90.
Proof.
  intros Hm.
  destruct (lookupMaterial_catalog _ m Hm) as (Hobj & _ & _ & Hb).
  rewrite (calculateImpact_value m vx vy material impactSurface Hobj Hb).
  do 2 eexists. split; [reflexivity |].
  cbn [ImpactResult.impactAngle]. split; [reflexivity |].
  pose proof (atan2_quadrant (Rabs vy) (Rabs vx) (Rabs_pos _) (Rabs_pos _))
    as [Hlo Hhi].
  pose proof PI_RGT_0 as Hpi.
  set (a := atan2 (Rabs vy) (Rabs vx)) in *.
  assert (Ha : 0 <= a * 180 / PI <= 90).
  { assert (E : a * 180 / PI = a / PI * 180) by (field; lra). rewrite E.
    assert (0 <= a / PI <= / 2); [| lra].
    unfold Rdiv. assert (0 < / PI) by now apply Rinv_0_lt_compat.
    split; [nra |].
    replace (/ 2) with (PI / 2 * / PI) by (field; lra). nra. }
  assert (E0 : toFixed 2 0 = 0) by (rewrite (toFixed_pos 2 _ 0); simpl; lra).
  assert (E90 : toFixed 2 90 = 90) by (rewrite (toFixed_pos 2 _ 9000); simpl; lra).
  pose proof (toFixed_monotone 2 0 (a * 180 / PI) ltac:(lra)).
  pose proof (toFixed_monotone 2 (a * 180 / PI) 90 ltac:(lra)).
  lra.
Qed.

Lemma impactAngle_range_witness :
  exists r angle,
    calculateImpact (Velocity.mk (Fin 3) (Fin (-4))) (Some "rock"%string) None = Ok r
    /\ ImpactResult.impactAngle r = Fin angle
    /\ 0 <= angle <= 90.
Proof.
  apply (impactAngle_range (Material.mk 0.5 0.05 0.47 0.2) 3 (-4)).
  reflexivity.
Defined.

Lemma impact_force_nonneg (m : Material.t) (vx vy : R) :
  0 < Material.mass m -> 0 < Material.bounciness m ->
  0 <= Material.mass m * sqrt (vx * vx + vy * vy) / (Material.bounciness m * 0.01).
Proof.
  intros Hm Hb. pose proof (sqrt_pos (vx * vx + vy * vy)).
  unfold Rdiv. apply Rmult_le_pos; [nra |].
  left. apply Rinv_0_lt_compat. lra.
Qed.

(** X13: for a finite velocity and a material of the catalog, a surface
    with a larger hardness factor never gives a smaller impact force; and a
    surface that is not in the table (nor inherited) gives what concrete
    gives. *)
Theorem impactForce_by_surface (m : Material.t) (vx vy : R)
  (material : option string) :
  own_property (default "basketball"%string material) MATERIALS = Some m ->
  (forall surface1 surface2 f1 f2,
      own_property surface1 surfaceFactors = Some f1 ->
      own_property surface2 surfaceFactors = Some f2 ->
      f1 <= f2 ->
      exists r1 r2,
        calculateImpact (Velocity.mk (Fin vx) (Fin vy)) material (Some surface1) = Ok r1
        /\ calculateImpact (Velocity.mk (Fin vx) (Fin vy)) material (Some surface2) = Ok r2
        /\ nle (ImpactResult.impactForce r1) (ImpactResult.impactForce r2))
  /\ (forall surface,
         own_property surface surfaceFactors = None ->
         existsb (String.eqb surface) Object_prototype = false ->
         calculateImpact (Velocity.mk (Fin vx) (Fin vy)) material (Some surface)
         = calculateImpact (Velocity.mk (Fin vx) (Fin vy)) material
                           (Some "concrete"%string)).
Proof.
  intros Hm.
  destruct (lookupMaterial_catalog _ m Hm) as (Hobj & (Hmass & _) & _ & Hb).
  split.
  - intros surface1 surface2 f1 f2 H1 H2 Hle.
    rewrite !(calculateImpact_value m vx vy material _ Hobj Hb).
    cbn [default].
    destruct (surfaceFactor_own _ _ H1) as [-> Hf1].
    destruct (surfaceFactor_own _ _ H2) as [-> Hf2].
    do 2 eexists. split; [reflexivity |]. split; [reflexivity |].
    cbn [ImpactResult.impactForce nmul lift2 parseFloat_toFixed lift1 nle].
    apply toFixed_monotone.
    pose proof (impact_force_nonneg m vx vy Hmass Hb). nra.
  - intros surface Hown Hinh.
    rewrite !(calculateImpact_value m vx vy material _ Hobj Hb).
    cbn [default].
    destruct (surfaceFactor_own "concrete" 1.0 eq_refl) as [-> _].
    unfold surfaceFactor. now rewrite Hown, Hinh.
Qed.

Lemma impactForce_by_surface_witness :
  exists r1 r2,
    calculateImpact (Velocity.mk (Fin 3) (Fin (-4))) (Some "rock"%string)
                    (Some "water"%string) = Ok r1
    /\ calculateImpact (Velocity.mk (Fin 3) (Fin (-4))) (Some "rock"%string)
                       (Some "metal"%string) = Ok r2
    /\ nle (ImpactResult.impactForce r1) (ImpactResult.impactForce r2).
Proof.
  apply (proj1 (impactForce_by_surface (Material.mk 0.5 0.05 0.47 0.2) 3 (-4)
                  (Some "rock"%string) eq_refl)
           "water"%string "metal"%string 0.3 1.2).
  - reflexivity.
  - reflexivity.
  - lra.
Defined.

Lemma catalog_contact_times :
  Forall (fun entry =>
            toFixed 2 (Material.bounciness (snd entry) * 0.01 * 1000)
            = 10 * Material.bounciness (snd entry)) MATERIALS.
Proof.
  unfold MATERIALS, MATERIALS_custom.
  repeat constructor; cbn [snd Material.bounciness].
  - rewrite (toFixed_pos 2 _ 850); simpl; lra.
  - rewrite (toFixed_pos 2 _ 750); simpl; lra.
  - rewrite (toFixed_pos 2 _ 730); simpl; lra.
  - rewrite (toFixed_pos 2 _ 550); simpl; lra.
  - rewrite (toFixed_pos 2 _ 780); simpl; lra.
  - rewrite (toFixed_pos 2 _ 150); simpl; lra.
  - rewrite (toFixed_pos 2 _ 200); simpl; lra.
  - rewrite (toFixed_pos 2 _ 100); simpl; lra.
  - rewrite (toFixed_pos 2 _ 600); simpl; lra.
Qed.

(** X14: for a material of the catalog the estimated contact time is ten
    times its bounciness, in milliseconds, whatever the velocity (finite or
    not) and the surface. *)
Theorem estimatedContactTime_of_material (name : string) (m : Material.t)
  (finalVelocity : Velocity.t) (impactSurface : option string) :
  own_property name MATERIALS = Some m ->
  exists r,
    calculateImpact finalVelocity (Some name) impactSurface = Ok r
    /\ ImpactResult.estimatedContactTime r = Fin (10 * Material.bounciness m).
Proof.
  intros Hm.
  destruct (lookupMaterial_catalog _ m Hm) as (Hobj & _ & _ & Hb).
  pose proof catalog_contact_times as W. rewrite Forall_forall in W.
  specialize (W _ (own_property_In _ _ _ Hm)). cbn [snd] in W.
  unfold calculateImpact. cbn [default]. rewrite Hobj.
  set (speed := Math_sqrt _).
  destruct (ndiv_Ok (nmul (prop Material.mass (MaterialObj m)) speed)
                    (contactTime (MaterialObj m))) as [force ->].
  { rewrite <- Hobj. apply contactTime_nonzero. }
  cbn [bind].
  destruct (ndiv_Ok (nmul (Math_atan2 (Math_abs (Velocity.vy finalVelocity))
                                      (Math_abs (Velocity.vx finalVelocity)))
                          (Fin 180)) Math_PI) as [angle ->].
  { unfold Math_PI. intros [= E]. now apply PI_neq0. }
  cbn [bind]. eexists. split; [reflexivity |].
  cbn [ImpactResult.estimatedContactTime contactTime prop nmul lift2
       parseFloat_toFixed lift1].
  now rewrite W.
Qed.

Lemma estimatedContactTime_of_material_witness :
  exists r,
    calculateImpact (Velocity.mk NaN (Fin 1)) (Some "basketball"%string) None = Ok r
    /\ ImpactResult.estimatedContactTime r = Fin (10 * 0.85).
Proof.
  apply (estimatedContactTime_of_material "basketball" basketball).
  reflexivity.
Defined.

(** ** More on forces *)

Lemma airResistanceComponent_finite (dm s v : R) :
  airResistanceComponent (Fin dm) (Fin s) (Fin v)
  = Ok (Fin (air_resistance_axis dm s v)).
Proof.
  unfold airResistanceComponent, air_resistance_axis. cbn [ngtb nneg nmul lift1 lift2].
  destruct (Rlt_dec 0 s) as [Hs | Hs]; [| reflexivity].
  rewrite ndiv_Fin by lra. reflexivity.
Qed.

(** The forces on a material of the catalog moving at a finite velocity,
    drag included. *)
Lemma calculateForces_with_drag (params : ForceParams.t) (m : Material.t)
  (vx vy : R) :
  lookupMaterial (default "basketball"%string (ForceParams.material params))
  = MaterialObj m ->
  default (Vector.mk 0 0) (ForceParams.velocity params) = Vector.mk (Fin vx) (Fin vy) ->
  default true (ForceParams.includeAirResistance params) = true ->
  exists forces,
    calculateForces params = Ok forces
    /\ Forces.airResistance forces
       = Some (Force.mk
                 (Fin (toFixed 3 (force_drag_magnitude m vx vy)))
                 (Some "opposite to velocity"%string)
                 (Vector.mk
                    (Fin (air_resistance_axis (force_drag_magnitude m vx vy)
                                              (sqrt (vx ^ 2 + vy ^ 2)) vx))
                    (Fin (air_resistance_axis (force_drag_magnitude m vx vy)
                                              (sqrt (vx ^ 2 + vy ^ 2)) vy))))
    /\ Force.vector (Forces.net forces)
       = Vector.mk
           (Fin (toFixed 3
                   (0 + air_resistance_axis (force_drag_magnitude m vx vy)
                                            (sqrt (vx ^ 2 + vy ^ 2)) vx + 0)))
           (Fin (toFixed 3
                   (- Material.mass m * GRAVITY
                    + air_resistance_axis (force_drag_magnitude m vx vy)
                                          (sqrt (vx ^ 2 + vy ^ 2)) vy
                    + air_buoyancy m))).
Proof.
  intros Hobj Hv Hflag. unfold calculateForces.
  rewrite Hobj, Hv, Hflag.
  cbn [Vector.x Vector.y prop nsq nadd nmul lift1 lift2 Math_PI].
  rewrite Math_sqrt_Fin by apply sum_squares_nonneg.
  cbn [nmul lift2]. fold (force_drag_magnitude m vx vy).
  rewrite !airResistanceComponent_finite. cbn [bind].
  rewrite (ndiv_Fin 4 3) by lra. cbn [bind].
  eexists. split; [reflexivity |]. split; reflexivity.
Qed.



(** X16: with [includeAirResistance: false] no drag entry is returned, and
    the net force is vertical: gravity plus buoyancy, whatever the velocity,
    the mass and the height passed in. *)
Theorem forces_without_air_resistance (params : ForceParams.t) (m : Material.t) :
  own_property (default "basketball"%string (ForceParams.material params))
               MATERIALS = Some m ->
  ForceParams.includeAirResistance params = Some false ->
  exists forces,
    calculateForces params = Ok forces
    /\ Forces.airResistance forces = None
    /\ Force.vector (Forces.buoyancy forces) = Vector.mk (Fin 0) (Fin (air_buoyancy m))
    /\ Force.vector (Forces.net forces)
       = Vector.mk (Fin 0)
                   (Fin (toFixed 3 (- Material.mass m * GRAVITY + 0 + air_buoyancy m))).
Proof.
  intros Hm Hflag.
  destruct (lookupMaterial_catalog _ m Hm) as (Hobj & _).
  unfold calculateForces. rewrite Hobj, Hflag.
  cbn [default bind]. rewrite (ndiv_Fin 4 3) by lra. cbn [bind].
  eexists. split; [reflexivity |].
  cbn [Forces.airResistance Forces.buoyancy Forces.net Force.vector Vector.x
       Vector.y optionalComponent prop nadd nmul nneg ncube lift1 lift2 Math_PI
       parseFloat_toFixed].
  repeat split. f_equal. f_equal.
  replace (0 + 0 + 0) with 0 by ring. rounds_to 0%Z.
Qed.

Lemma forces_without_air_resistance_witness :
  exists forces,
    calculateForces
      (ForceParams.mk (Some 1) (Some (Vector.mk 10 5)) None
                      (Some "basketball"%string) (Some false)) = Ok forces
    /\ Forces.airResistance forces = None
    /\ Force.vector (Forces.buoyancy forces)
       = Vector.mk (Fin 0) (Fin (air_buoyancy basketball))
    /\ Force.vector (Forces.net forces)
       = Vector.mk (Fin 0)
                   (Fin (toFixed 3 (- Material.mass basketball * GRAVITY + 0
                                    + air_buoyancy basketball))).
Proof.
  apply (forces_without_air_resistance _ basketball).
  - reflexivity.
  - reflexivity.
Defined.

Lemma net_force_at_rest_catalog :
  Forall (fun entry =>
            let u := - Material.mass (snd entry) * GRAVITY + 0
                     + air_buoyancy (snd entry) in
            (fst entry = "paper_airplane"%string -> 0.001 <= u)
            /\ (fst entry <> "paper_airplane"%string -> u <= - 0.001))
         MATERIALS.
Proof.
  pose proof PI2_3_2 as Hlow. pose proof PI_4 as Hup.
  unfold MATERIALS, MATERIALS_custom, air_buoyancy, GRAVITY, AIR_DENSITY.
  repeat (apply Forall_cons || apply Forall_nil);
    cbn [fst snd Material.mass Material.radius];
    (split; intros Hname;
     [try discriminate Hname | try (now contradict Hname)]).
  all: simpl; lra.
Qed.

(** X17: at rest the net force on a material of the catalog points down,
    except for the paper airplane, whose buoyancy (that of a sphere of
    10 cm radius) exceeds its weight: its net force points up. *)
Theorem net_force_at_rest (name : string) (m : Material.t) :
  own_property name MATERIALS = Some m ->
  exists forces v,
    calculateForces (at_rest name) = Ok forces
    /\ Vector.y (Force.vector (Forces.net forces)) = Fin v
    /\ (name = "paper_airplane"%string -> 0 < v)
    /\ (name <> "paper_airplane"%string -> v < 0).
Proof.
  intros Hm.
  destruct (lookupMaterial_catalog _ m Hm) as (Hobj & _).
  destruct (calculateForces_with_drag (at_rest name) m 0 0 Hobj eq_refl eq_refl)
    as (forces & Hrun & _ & Hnet).
  pose proof net_force_at_rest_catalog as W. rewrite Forall_forall in W.
  specialize (W _ (own_property_In _ _ _ Hm)). cbn [fst snd] in W.
  destruct W as [Hpaper Hother].
  assert (Hrest : air_resistance_axis (force_drag_magnitude m 0 0)
                                      (sqrt (0 ^ 2 + 0 ^ 2)) 0 = 0).
  { unfold air_resistance_axis.
    replace (0 ^ 2 + 0 ^ 2) with 0 by ring. rewrite sqrt_0.
    destruct (Rlt_dec 0 0); [lra | reflexivity]. }
  rewrite Hrest in Hnet.
  do 2 eexists. split; [exact Hrun |]. rewrite Hnet. cbn [Vector.y].
  split; [reflexivity |].
  assert (Eup : toFixed 3 0.001 = 0.001) by rounds_to 1%Z.
  assert (Edown : toFixed 3 (- 0.001) = - 0.001).
  { rewrite (toFixed_neg 3 _ 1); simpl; lra. }
  split; intros Hname.
  - pose proof (toFixed_monotone 3 _ _ (Hpaper Hname)). lra.
  - pose proof (toFixed_monotone 3 _ _ (Hother Hname)). lra.
Qed.

Lemma net_force_at_rest_witness :
  exists forces v,
    calculateForces (at_rest "paper_airplane") = Ok forces
    /\ Vector.y (Force.vector (Forces.net forces)) = Fin v
    /\ ("paper_airplane"%string = "paper_airplane"%string -> 0 < v)
    /\ ("paper_airplane"%string <> "paper_airplane"%string -> v < 0).
Proof.
  apply (net_force_at_rest "paper_airplane" (Material.mk 0.003 0.1 0.02 0.1)).
  reflexivity.
Defined.

(** ** The routes *)

Lemma toFixed_grid (d : nat) (n : Z) :
  (0 <= n)%Z -> toFixed d (IZR n / 10 ^ d) = IZR n / 10 ^ d.
Proof.
  intros Hn. pose proof (pow10_pos d) as Hd. apply IZR_le in Hn.
  assert (Hpos : 0 <= IZR n / 10 ^ d).
  { unfold Rdiv. apply Rmult_le_pos; [lra |].
    left. now apply Rinv_0_lt_compat. }
  unfold toFixed. rewrite (Rabs_pos_eq _ Hpos).
  destruct (Rle_dec (10 ^ 21) (IZR n / 10 ^ d)) as [_ | _]; [reflexivity |].
  destruct (Rlt_dec (IZR n / 10 ^ d) 0) as [Hneg | _]; [lra |].
  rewrite (Zfloor_eq n); [reflexivity |].
  replace (IZR n / 10 ^ d * 10 ^ d) with (IZR n) by (field; lra). lra.
Qed.

Lemma toFixed_shape (d : nat) (x : R) :
  0 <= x ->
  toFixed d x = x \/ exists n, (0 <= n)%Z /\ toFixed d x = IZR n / 10 ^ d.
Proof.
  intros Hx. pose proof (pow10_pos d) as Hd.
  unfold toFixed. rewrite (Rabs_pos_eq x Hx).
  destruct (Rle_dec (10 ^ 21) x) as [_ | _]; [now left |].
  destruct (Rlt_dec x 0) as [Hneg | _]; [lra |].
  right. eexists. split; [| reflexivity].
  apply Zfloor_lub. simpl. nra.
Qed.

Lemma toFixed_idempotent_nonneg (d : nat) (x : R) :
  0 <= x -> toFixed d (toFixed d x) = toFixed d x.
Proof.
  intros Hx.
  destruct (toFixed_shape d x Hx) as [E | (n & Hn & E)]; rewrite E.
  - exact E.
  - now apply toFixed_grid.
Qed.

(** Rounding twice is rounding once. *)
Lemma toFixed_idempotent (d : nat) (x : R) :
  toFixed d (toFixed d x) = toFixed d x.
Proof.
  destruct (Rle_dec 0 x) as [Hx | Hx]; [now apply toFixed_idempotent_nonneg |].
  assert (Hu : 0 <= - x) by lra.
  replace x with (- - x) by ring. generalize dependent (- x). intros u Hu.
  rewrite (toFixed_opp d u), (toFixed_opp d (toFixed d u)).
  f_equal. now apply toFixed_idempotent_nonneg.
Qed.

Lemma rounded_toFixed (a : num) : rounded (parseFloat_toFixed 3 a).
Proof.
  unfold rounded. destruct a as [x |]; cbn [parseFloat_toFixed lift1];
    [| reflexivity].
  now rewrite toFixed_idempotent.
Qed.

(** Every sample of a run carries rounded numbers. *)
Lemma run_rounded obj airDensity gravity windX windY (s : State.t)
  (pushed : list Sample.t) :
  run obj airDensity gravity windX windY s pushed ->
  forall p, In p pushed ->
    rounded (Sample.time p) /\ rounded (Sample.x p) /\ rounded (Sample.y p).
Proof.
  assert (Turn : forall s s' p,
             step obj airDensity gravity windX windY s = Ok (s', p) ->
             rounded (Sample.time p) /\ rounded (Sample.x p)
             /\ rounded (Sample.y p)).
  { intros s0 s' p Hstep.
    apply step_sample in Hstep as (_ & -> & -> & -> & _).
    repeat split; apply rounded_toFixed. }
  induction 1 as [s Hy | s s' p Hy Hstep Ht | s s' p rest Hy Hstep Ht Hrun IH];
    intros q Hq.
  - destruct Hq.
  - destruct Hq as [<- | []]. now apply (Turn s s').
  - destruct Hq as [<- | Hq]; [now apply (Turn s s') | now apply IH].
Qed.

Lemma nmax_NaN_l (b : num) : nmax NaN b = NaN.
Proof. reflexivity. Qed.

Lemma Math_max_NaN (rest : list num) : Math_max NaN rest = NaN.
Proof.
  unfold Math_max. induction rest as [| a rest IH]; [reflexivity |].
  cbn [fold_left]. now rewrite nmax_NaN_l.
Qed.

(** [Math.max] is [NaN], or one of its arguments and above them all. *)
Lemma Math_max_spec (rest : list num) :
  forall first : num,
    Math_max first rest = NaN
    \/ (In (Math_max first rest) (first :: rest)
        /\ forall a, In a (first :: rest) -> nle a (Math_max first rest)).
Proof.
  unfold Math_max.
  induction rest as [| b rest IH]; intros first; cbn [fold_left].
  - destruct first as [x |]; [right | now left].
    split; [now left |]. intros a [<- | []]. cbn [nle]. lra.
  - destruct first as [x |], b as [y |]; cbn [nmax lift2];
      try (left; apply Math_max_NaN).
    destruct (IH (Fin (Rmax x y))) as [Hnan | [Hin Hall]]; [now left |].
    right. fold (Math_max (Fin (Rmax x y)) rest) in *.
    assert (Hmax : nle (Fin (Rmax x y)) (Math_max (Fin (Rmax x y)) rest))
      by (apply Hall; now left).
    destruct (Math_max (Fin (Rmax x y)) rest) as [M |] eqn:EM;
      [| destruct Hmax]. cbn [nle] in Hmax.
    split.
    + destruct Hin as [Hin | Hin]; [| now right; right].
      injection Hin as Hin. rewrite <- Hin.
      unfold Rmax. destruct (Rle_dec x y); [right; now left | now left].
    + intros a [<- | [<- | Ha]]; cbn [nle].
      * pose proof (Rmax_l x y). lra.
      * pose proof (Rmax_r x y). lra.
      * apply Hall. now right.
Qed.

Lemma calculateTrajectory_below_ground (fuel : nat) (params : TrajectoryParams.t) :
  default 0 (TrajectoryParams.initialHeight params) < 0 ->
  calculateTrajectory fuel params = Ok [].
Proof.
  intros Hh. unfold calculateTrajectory.
  destruct (setup_Ok params) as (e & -> & _ & _ & Hy). cbn [bind].
  assert (Hneg : ngeb (State.y (Setup.start e)) (Fin 0) = false).
  { rewrite Hy. cbn [ngeb].
    destruct (Rle_dec 0 (default 0 (TrajectoryParams.initialHeight params)));
      [lra | reflexivity]. }
  destruct fuel; cbn [while_loop]; now rewrite Hneg.
Qed.

Lemma missing_or_nonpositive_spec (params : TrajectoryParams.t) :
  missing_or_nonpositive (TrajectoryParams.initialVelocity params) = false
  <-> positive_velocity params.
Proof.
  unfold missing_or_nonpositive, positive_velocity.
  destruct (TrajectoryParams.initialVelocity params) as [v |].
  - destruct (Rle_dec v 0) as [Hle | Hgt]; split.
    + discriminate.
    + intros (w & [= <-] & Hw). lra.
    + intros _. exists v. split; [reflexivity | lra].
    + reflexivity.
  - split; [discriminate | intros (w & [=] & _)].
Qed.

Lemma outside_launch_angles_spec (params : TrajectoryParams.t) :
  outside_launch_angles (TrajectoryParams.launchAngle params) = false
  <-> allowed_angle params.
Proof.
  unfold outside_launch_angles, allowed_angle.
  destruct (TrajectoryParams.launchAngle params) as [a |].
  - destruct (Rlt_dec a (-90)) as [Hlow | Hlow].
    + split; [discriminate |]. intros H. specialize (H a eq_refl). lra.
    + destruct (Rlt_dec 90 a) as [Hup | Hup].
      * split; [discriminate |]. intros H. specialize (H a eq_refl). lra.
      * split; [| reflexivity]. intros _ b [= <-]. lra.
  - split; [| reflexivity]. intros _ b [=].
Qed.

(** A request that passes the checks and starts on or above the ground is
    answered 200. *)
Lemma post_api_trajectory_answers (fuel : nat) (body : TrajectoryRequest.t) :
  (MAX_SAMPLES <= fuel)%nat ->
  positive_velocity (TrajectoryRequest.params body) ->
  allowed_angle (TrajectoryRequest.params body) ->
  0 <= default 0 (TrajectoryParams.initialHeight (TrajectoryRequest.params body)) ->
  exists results, post_api_trajectory fuel body = Ok (Json results).
Proof.
  intros Hfuel Hpos Hall Hh. unfold post_api_trajectory.
  apply missing_or_nonpositive_spec in Hpos. rewrite Hpos.
  apply outside_launch_angles_spec in Hall. rewrite Hall.
  destruct (calculateTrajectory_returns fuel (TrajectoryRequest.params body) Hfuel)
    as (trajectory & -> & _ & _ & Hne).
  specialize (Hne Hh). cbn [bind].
  destruct trajectory as [| first rest]; [contradiction |].
  destruct (calculateImpact_Ok
              (Velocity.mk (Sample.vx (last rest first))
                           (Sample.vy (last rest first)))
              (TrajectoryParams.material (TrajectoryRequest.params body))
              (TrajectoryRequest.impactSurface body)) as [impact ->].
  cbn [bind]. now eexists.
Qed.

(** X18: what the trajectory route answers.  Without a positive initial
    velocity: 400; else with a launch angle outside [-90, 90]: 400 (an
    absent angle passes); else with a negative initial height: 500, the
    trajectory being empty; and in every other case 200. *)
Theorem post_api_trajectory_status (fuel : nat) (body : TrajectoryRequest.t) :
  (MAX_SAMPLES <= fuel)%nat ->
  let params := TrajectoryRequest.params body in
  (~ positive_velocity params ->
   post_api_trajectory fuel body
   = Ok (BadRequest "Initial velocity must be greater than 0"))
  /\ (positive_velocity params -> ~ allowed_angle params ->
      post_api_trajectory fuel body
      = Ok (BadRequest "Launch angle must be between -90 and 90 degrees"))
  /\ (positive_velocity params -> allowed_angle params ->
      default 0 (TrajectoryParams.initialHeight params) < 0 ->
      post_api_trajectory fuel body
      = Ok (ServerError "Internal server error during trajectory calculation"))
  /\ (positive_velocity params -> allowed_angle params ->
      0 <= default 0 (TrajectoryParams.initialHeight params) ->
      exists results, post_api_trajectory fuel body = Ok (Json results)).
Proof.
  intros Hfuel params.
  split; [| split; [| split]].
  - intros Hn. unfold post_api_trajectory. fold params.
    destruct (missing_or_nonpositive _) eqn:E; [reflexivity |].
    apply missing_or_nonpositive_spec in E. contradiction.
  - intros Hpos Hn. unfold post_api_trajectory. fold params.
    apply missing_or_nonpositive_spec in Hpos. rewrite Hpos.
    destruct (outside_launch_angles _) eqn:E; [reflexivity |].
    apply outside_launch_angles_spec in E. contradiction.
  - intros Hpos Hall Hh. unfold post_api_trajectory. fold params.
    apply missing_or_nonpositive_spec in Hpos. rewrite Hpos.
    apply outside_launch_angles_spec in Hall. rewrite Hall.
    now rewrite calculateTrajectory_below_ground.
  - intros Hpos Hall Hh. now apply post_api_trajectory_answers.
Qed.

Lemma post_api_trajectory_status_witness :
  post_api_trajectory MAX_SAMPLES
    (TrajectoryRequest.mk
       (TrajectoryParams.mk (Some (-1)) (Some 15) (Some 45) None None None None None)
       None)
  = Ok (ServerError "Internal server error during trajectory calculation").
Proof.
  apply (post_api_trajectory_status MAX_SAMPLES
           (TrajectoryRequest.mk
              (TrajectoryParams.mk (Some (-1)) (Some 15) (Some 45)
                                   None None None None None) None)
           (le_n _)).
  - exists 15. split; [reflexivity | lra].
  - intros a [= <-]. lra.
  - cbn. lra.
Defined.

Lemma last_default {A : Type} (l : list A) :
  forall a d1 d2 : A, last (a :: l) d1 = last (a :: l) d2.
Proof.
  induction l as [| b l IH]; intros a d1 d2; [reflexivity |].
  change (last (b :: l) d1 = last (b :: l) d2). apply IH.
Qed.

Lemma last_cons {A : Type} (l : list A) :
  forall a d : A, last (a :: l) d = last l a.
Proof.
  induction l as [| b l IH]; intros a d; [reflexivity |].
  change (last (b :: l) d = last (b :: l) a). apply last_default.
Qed.

Lemma finalPoint_cons (first : Sample.t) (rest : list Sample.t) :
  finalPoint (first :: rest) = Some (last rest first).
Proof.
  unfold finalPoint. cbn [map]. rewrite last_cons.
  revert first. induction rest as [| b rest IH]; intros first; [reflexivity |].
  cbn [map]. rewrite last_cons, IH. now rewrite last_cons.
Qed.

Lemma last_In (first : Sample.t) (rest : list Sample.t) :
  In (last rest first) (first :: rest).
Proof. apply finalPoint_In, finalPoint_cons. Qed.

(** X19: in a 200 answer of the trajectory route the summary describes the
    trajectory returned: range, flight time and landing velocity are those
    of the last sample (the second rounding changes nothing), the flight
    time is at most 300 s, and the maximal height is [NaN] or the height of
    one of the samples and not below any. *)
Theorem post_api_trajectory_summary (fuel : nat) (body : TrajectoryRequest.t)
  (results : TrajectoryResults.t) :
  (MAX_SAMPLES <= fuel)%nat ->
  post_api_trajectory fuel body = Ok (Json results) ->
  let trajectory := TrajectoryResults.trajectory results in
  let summary := TrajectoryResults.summary results in
  calculateTrajectory fuel (TrajectoryRequest.params body) = Ok trajectory
  /\ exists final,
      finalPoint trajectory = Some final
      /\ Summary.range summary = Sample.x final
      /\ Summary.flightTime summary = Sample.time final
      /\ time_within_cutoff final
      /\ Summary.landingVelocity summary
         = LandingVelocity.mk (Sample.vx final) (Sample.vy final)
                              (Sample.speed final)
      /\ (Summary.maxHeight summary = NaN
          \/ ((exists p, In p trajectory
                         /\ Summary.maxHeight summary = Sample.y p)
              /\ forall p, In p trajectory ->
                           nle (Sample.y p) (Summary.maxHeight summary))).
Proof.
  intros Hfuel. unfold post_api_trajectory.
  destruct (missing_or_nonpositive _); [discriminate |].
  destruct (outside_launch_angles _); [discriminate |].
  destruct (calculateTrajectory fuel (TrajectoryRequest.params body))
    as [trajectory | |] eqn:Hrun; cbn [bind]; try discriminate.
  destruct trajectory as [| first rest]; [discriminate |].
  destruct (calculateImpact _ _ _) as [impact | |]; cbn [bind]; try discriminate.
  intros [= <-].
  cbn [TrajectoryResults.trajectory TrajectoryResults.summary Summary.range
       Summary.flightTime Summary.landingVelocity Summary.maxHeight].
  split; [reflexivity |].
  destruct (calculateTrajectory_run _ _ _ Hrun) as (e & _ & Hloop).
  pose proof (run_rounded _ _ _ _ _ _ _ Hloop) as Hrounded.
  destruct (Hrounded _ (last_In first rest)) as (Htime & Hx & _).
  exists (last rest first).
  split; [apply finalPoint_cons |].
  split; [exact Hx |]. split; [exact Htime |].
  split.
  { destruct (calculateTrajectory_returns fuel (TrajectoryRequest.params body) Hfuel)
      as (trajectory' & Hrun' & _ & Hall & _).
    rewrite Hrun in Hrun'. injection Hrun' as <-.
    rewrite Forall_forall in Hall. apply Hall, last_In. }
  split; [reflexivity |].
  destruct (Math_max_spec (map Sample.y rest) (Sample.y first))
    as [-> | [Hin Hall]]; [now left |].
  right.
  change (Sample.y first :: map Sample.y rest)
    with (map Sample.y (first :: rest)) in *.
  apply in_map_iff in Hin as (p & Hp & Hin).
  destruct (Hrounded p Hin) as (_ & _ & Hy).
  rewrite <- Hp in *. rewrite Hy.
  split; [now exists p |].
  intros q Hq. apply Hall. now apply in_map.
Qed.

Lemma post_api_trajectory_summary_witness :
  exists results,
    post_api_trajectory MAX_SAMPLES
      (TrajectoryRequest.mk (level_throw 0) None) = Ok (Json results)
    /\ exists final,
        finalPoint (TrajectoryResults.trajectory results) = Some final
        /\ Summary.range (TrajectoryResults.summary results) = Sample.x final.
Proof.
  destruct (post_api_trajectory_answers MAX_SAMPLES
              (TrajectoryRequest.mk (level_throw 0) None) (le_n _))
    as [results Hresults].
  - exists 1. split; [reflexivity | lra].
  - intros a [= <-]. lra.
  - cbn. lra.
  - exists results. split; [exact Hresults |].
    destruct (post_api_trajectory_summary MAX_SAMPLES _ results (le_n _) Hresults)
      as (_ & final & Hfinal & Hrange & _).
    exists final. split; assumption.
Defined.

(** *** Quick throws *)

Lemma quick_throw_initialHeight (body : QuickThrowRequest.t) :
  default 0 (TrajectoryParams.initialHeight (quick_throw_params body))
  = quick_throw_height body.
Proof. reflexivity. Qed.

Lemma ngtb_nlt (a b : num) : ngtb a b = true <-> nlt b a.
Proof.
  destruct a as [x |], b as [y |]; cbn [ngtb nlt];
    try (split; [discriminate | contradiction]).
  destruct (Rlt_dec y x); split; trivial; [discriminate | contradiction].
Qed.

(** A quick throw from a height that is not negative is answered 200. *)
Lemma post_api_quick_throw_answers (fuel : nat) (body : QuickThrowRequest.t) :
  (MAX_SAMPLES <= fuel)%nat ->
  0 <= quick_throw_height body ->
  exists answer,
    post_api_quick_throw fuel body = Ok (Json answer)
    /\ QuickThrowBody.scenario answer = QuickThrowRequest.scenario body
    /\ QuickThrowResults.safetyWarning (QuickThrowBody.results answer)
       = if ngtb (QuickThrowResults.impactForce (QuickThrowBody.results answer))
                 (Fin 1000)
         then Some "High impact force - exercise caution"%string
         else None.
Proof.
  intros Hfuel Hh. unfold post_api_quick_throw.
  destruct (calculateTrajectory_returns fuel (quick_throw_params body) Hfuel)
    as (trajectory & -> & _ & _ & Hne).
  rewrite quick_throw_initialHeight in Hne. specialize (Hne Hh). cbn [bind].
  destruct trajectory as [| first rest]; [contradiction |].
  destruct (calculateImpact_Ok
              (Velocity.mk (Sample.vx (last rest first))
                           (Sample.vy (last rest first)))
              (TrajectoryParams.material (quick_throw_params body)) None)
    as [impact ->].
  cbn [bind]. eexists. split; [reflexivity |]. split; reflexivity.
Qed.

(** X20: the quick-throw route validates nothing: whatever the velocity
    and the angle it answers 200, with the scenario echoed and a safety
    warning exactly when the impact force is above 1000, except that a
    negative launch height, which leaves the trajectory empty, is answered
    500. *)
Theorem post_api_quick_throw_status (fuel : nat) (body : QuickThrowRequest.t) :
  (MAX_SAMPLES <= fuel)%nat ->
  (quick_throw_height body < 0 ->
   post_api_quick_throw fuel body
   = Ok (ServerError "Internal server error during quick calculation"))
  /\ (0 <= quick_throw_height body ->
      exists answer,
        post_api_quick_throw fuel body = Ok (Json answer)
        /\ QuickThrowBody.scenario answer = QuickThrowRequest.scenario body
        /\ (QuickThrowResults.safetyWarning (QuickThrowBody.results answer)
            = Some "High impact force - exercise caution"%string
            <-> nlt (Fin 1000)
                    (QuickThrowResults.impactForce (QuickThrowBody.results answer)))
        /\ (QuickThrowResults.safetyWarning (QuickThrowBody.results answer) = None
            <-> ~ nlt (Fin 1000)
                    (QuickThrowResults.impactForce (QuickThrowBody.results answer)))).
Proof.
  intros Hfuel. split; intros Hh.
  - unfold post_api_quick_throw.
    rewrite calculateTrajectory_below_ground; [reflexivity |].
    now rewrite quick_throw_initialHeight.
  - destruct (post_api_quick_throw_answers fuel body Hfuel Hh)
      as (answer & Hrun & Hecho & Hwarn).
    exists answer. split; [exact Hrun |]. split; [exact Hecho |].
    rewrite Hwarn.
    pose proof (ngtb_nlt (QuickThrowResults.impactForce
                            (QuickThrowBody.results answer)) (Fin 1000)) as Hw.
    destruct (ngtb _ (Fin 1000)).
    + split; split; trivial; try discriminate.
      * intros _. now apply Hw.
      * intros Hn. exfalso. apply Hn. now apply Hw.
    + split; split; trivial; try discriminate.
      * intros Hn. apply Hw in Hn. discriminate.
      * intros _ Hn. apply Hw in Hn. discriminate.
Qed.

Lemma post_api_quick_throw_status_witness :
  post_api_quick_throw MAX_SAMPLES
    (QuickThrowRequest.mk (Some "football_field"%string) (Some (-2)) (Some 12) None)
  = Ok (ServerError "Internal server error during quick calculation").
Proof.
  apply (proj1 (post_api_quick_throw_status MAX_SAMPLES
                  (QuickThrowRequest.mk (Some "football_field"%string)
                                        (Some (-2)) (Some 12) None)
                  (le_n _))).
  unfold quick_throw_height, or_else. cbn.
  destruct (Req_dec_T 0 0) as [_ | Hn]; [lra | now contradict Hn].
Defined.

Lemma or_else_nonzero (v requested : R) : v <> 0 -> or_else (Some v) requested = v.
Proof.
  intros Hv. unfold or_else.
  destruct (Req_dec_T v 0); [contradiction | reflexivity].
Qed.

Lemma or_else_zero (requested : R) : or_else (Some 0) requested = requested.
Proof.
  unfold or_else. destruct (Req_dec_T 0 0) as [_ | Hn];
    [reflexivity | now contradict Hn].
Qed.

(** X21: the parameters the four scenarios are run with.  A configured
    height or angle replaces the request's, but a configured 0 is falsy and
    gives way: the football field starts at the height of the request, and
    the baseball pitch is thrown at the angle of the request, 45 degrees by
    default, not horizontally. *)
Theorem quick_throw_scenarios (height velocity angle : option R) :
  quick_throw_params
    (QuickThrowRequest.mk (Some "balcony_ball"%string) height velocity angle)
  = TrajectoryParams.mk (Some 10) (Some (default 10 velocity)) (Some 15)
                        (Some "basketball"%string) (Some 0) (Some 0) None None
  /\ quick_throw_params
       (QuickThrowRequest.mk (Some "football_field"%string) height velocity angle)
     = TrajectoryParams.mk (Some (default 0 height)) (Some (default 10 velocity))
                           (Some 30) (Some "soccer"%string) (Some 0) (Some 0)
                           None None
  /\ quick_throw_params
       (QuickThrowRequest.mk (Some "baseball_pitch"%string) height velocity angle)
     = TrajectoryParams.mk (Some 1.5) (Some (default 10 velocity))
                           (Some (default 45 angle)) (Some "baseball"%string)
                           (Some 0) (Some 0) None None
  /\ quick_throw_params
       (QuickThrowRequest.mk (Some "paper_airplane"%string) height velocity angle)
     = TrajectoryParams.mk (Some 1.5) (Some (default 10 velocity)) (Some 10)
                           (Some "paper_airplane"%string) (Some 0) (Some 0)
                           None None.
Proof.
  unfold quick_throw_params.
  cbn [QuickThrowRequest.scenario QuickThrowRequest.height
       QuickThrowRequest.velocity QuickThrowRequest.angle].
  repeat split;
    match goal with
    | |- context [scenario_config (Some ?name)] =>
        let c := eval cbv in (own_property name scenarios) in
        match c with
        | Some ?config =>
            change (scenario_config (Some name)) with config
        end
    end;
    cbn [Scenario.height Scenario.angle Scenario.material];
    rewrite ?or_else_zero, ?or_else_nonzero by lra; reflexivity.
Qed.

(** The integrator and the impact read an absent material as the
    basketball. *)
Lemma quick_throw_default_material (fuel : nat) (h v a : R) :
  calculateTrajectory fuel
    (TrajectoryParams.mk (Some h) (Some v) (Some a) None (Some 0) (Some 0) None None)
  = calculateTrajectory fuel
      (TrajectoryParams.mk (Some h) (Some v) (Some a) (Some "basketball"%string)
                           (Some 0) (Some 0) None None).
Proof. reflexivity. Qed.

(** X22: a scenario outside the four, be it absent, unknown or a name
    inherited from [Object.prototype], is run as a basketball throw with the
    height, velocity and angle of the request: the answer is the one of the
    request without scenario, up to the name echoed. *)
Theorem quick_throw_unknown_scenario (fuel : nat) (body : QuickThrowRequest.t)
  (answer : QuickThrowBody.t) :
  own_property (default "undefined"%string (QuickThrowRequest.scenario body))
               scenarios = None ->
  post_api_quick_throw fuel body = Ok (Json answer) ->
  post_api_quick_throw fuel
    (QuickThrowRequest.mk None (QuickThrowRequest.height body)
                          (QuickThrowRequest.velocity body)
                          (QuickThrowRequest.angle body))
  = Ok (Json (QuickThrowBody.mk None (QuickThrowBody.results answer))).
Proof.
  intros Hown. unfold post_api_quick_throw, quick_throw_params, scenario_config.
  cbn [QuickThrowRequest.scenario QuickThrowRequest.height
       QuickThrowRequest.velocity QuickThrowRequest.angle].
  rewrite Hown.
  change (own_property (default "undefined"%string None) scenarios)
    with (@None Scenario.t).
  change (existsb (String.eqb (default "undefined"%string None)) Object_prototype)
    with false.
  destruct (existsb _ Object_prototype);
    cbn [Scenario.height Scenario.angle Scenario.material or_else
         TrajectoryParams.material];
    rewrite ?quick_throw_default_material;
    (destruct (calculateTrajectory fuel _) as [trajectory | |]; cbn [bind];
     try discriminate;
     destruct trajectory as [| first rest]; [discriminate |]);
    unfold calculateImpact; cbn [default];
    match goal with
    | |- context [ndiv ?a ?b] =>
        destruct (ndiv a b) as [force | |]; cbn [bind]; try discriminate
    end;
    match goal with
    | |- context [ndiv ?a ?b] =>
        destruct (ndiv a b) as [ang | |]; cbn [bind]; try discriminate
    end;
    intros [= <-]; reflexivity.
Qed.

Lemma quick_throw_unknown_scenario_witness :
  exists answer,
    post_api_quick_throw MAX_SAMPLES
      (QuickThrowRequest.mk (Some "toString"%string) None (Some 12) None)
    = Ok (Json answer)
    /\ post_api_quick_throw MAX_SAMPLES
         (QuickThrowRequest.mk None None (Some 12) None)
       = Ok (Json (QuickThrowBody.mk None (QuickThrowBody.results answer))).
Proof.
  destruct (post_api_quick_throw_answers MAX_SAMPLES
              (QuickThrowRequest.mk (Some "toString"%string) None (Some 12) None)
              (le_n _))
    as (answer & Hrun & _).
  - cbn. lra.
  - exists answer. split; [exact Hrun |].
    apply (quick_throw_unknown_scenario MAX_SAMPLES
             (QuickThrowRequest.mk (Some "toString"%string) None (Some 12) None)
             answer eq_refl Hrun).
Defined.

(** *** The catalog listed *)

Lemma MATERIALS_keys_NoDup : NoDup MATERIALS_keys.
Proof.
  unfold MATERIALS_keys, MATERIALS. cbn [map fst].
  repeat (apply NoDup_cons; [cbn [In]; intuition discriminate |]).
  apply NoDup_nil.
Qed.

Lemma own_property_of_In {A : Type} (o : list (string * A)) (key : string) (v : A) :
  NoDup (map fst o) -> In (key, v) o -> own_property key o = Some v.
Proof.
  induction o as [| [k w] o IH]; intros Hnd Hin; [destruct Hin |].
  cbn [map fst] in Hnd. apply NoDup_cons_iff in Hnd as [Hfresh Hnd].
  cbn [own_property].
  destruct Hin as [[= -> ->] | Hin].
  - now rewrite String.eqb_refl.
  - destruct (String.eqb key k) eqn:E.
    + apply String.eqb_eq in E. subst k. exfalso. apply Hfresh.
      change key with (fst (key, v)). now apply in_map.
    + now apply IH.
Qed.

(** X23: GET /api/materials lists the nine materials of the catalog, each
    name once, and what it lists under a name is what the engine looks up
    under that name, a material within the ranges; no catalog material is
    left out. *)
Theorem get_api_materials_listing :
  exists body,
    get_api_materials = Json body
    /\ MaterialsBody.count body = 9%nat
    /\ length (MaterialsBody.materials body) = MaterialsBody.count body
    /\ NoDup (map MaterialInfo.name (MaterialsBody.materials body))
    /\ (forall info,
           In info (MaterialsBody.materials body) ->
           exists m,
             MaterialInfo.properties info = Some (MaterialObj m)
             /\ lookupMaterial (MaterialInfo.name info) = MaterialObj m
             /\ well_formed m)
    /\ (forall name m,
           own_property name MATERIALS = Some m ->
           In (MaterialInfo.mk name (Some (MaterialObj m)))
              (MaterialsBody.materials body)).
Proof.
  unfold get_api_materials. eexists. split; [reflexivity |].
  cbn [MaterialsBody.count MaterialsBody.materials].
  split; [reflexivity |]. split; [reflexivity |].
  split; [| split].
  - rewrite map_map. cbn [MaterialInfo.name]. rewrite map_id.
    apply MATERIALS_keys_NoDup.
  - intros info Hin. apply in_map_iff in Hin as (key & <- & Hkey).
    unfold MATERIALS_keys in Hkey.
    apply in_map_iff in Hkey as ([k m] & Hk & Hentry). cbn [fst] in Hk. subst k.
    pose proof (own_property_of_In MATERIALS key m MATERIALS_keys_NoDup Hentry)
      as Hown.
    destruct (lookupMaterial_catalog key m Hown) as (Hlookup & Hwf & _).
    exists m. cbn [MaterialInfo.properties MaterialInfo.name].
    unfold MATERIALS_get. rewrite Hown. auto.
  - intros name m Hown.
    apply in_map_iff. exists name. split.
    + unfold MATERIALS_get. now rewrite Hown.
    + unfold MATERIALS_keys. apply own_property_In in Hown.
      change name with (fst (name, m)). now apply in_map.
Qed.

Lemma get_api_materials_listing_witness :
  exists body,
    get_api_materials = Json body
    /\ In (MaterialInfo.mk "basketball" (Some (MaterialObj basketball)))
          (MaterialsBody.materials body).
Proof.
  destruct get_api_materials_listing as (body & Hbody & _ & _ & _ & _ & Hall).
  exists body. split; [exact Hbody |].
  apply (Hall "basketball"%string basketball). reflexivity.
Defined.
